(** * Smart-home multi-agent orchestration: the task queue, the workers and
      the one-hop collaboration protocol of [smart_home_langgraph.py].

    The development embeds [task_planner] and the eight device workers
    ([clock_agent] ... [audio_system_agent]) as functions from the shared
    [SmartHomeState] to the [Command] they return.  The language model behind
    [chain.invoke] is a parameter (an [Oracle]); every call made to it is
    logged, so that "no Oracle call" is a statement about the log.

    Typing conventions.  The dictionaries that travel through the state
    ([task_queue] entries, [collaboration_request], [pending_task]) are only
    ever built with all of their keys, so they are records of strings.  A key
    of the state that may be missing ([SmartHomeState] is declared with
    [total=False]) is an [option]; a value that may be Python's [None] is an
    [option] as well.  Where the source indexes with [x[k]] instead of
    [x.get(k)], the failure is kept as a raised exception. *)

From stdpp Require Import base strings gmap list.

(* ------------------------------------------------------------------ *)
(** ** Data model *)

(** One entry of [task_queue]: [{"device": ..., "action": ...}]. *)
Record Task := mkTask {
  task_device : string;
  task_action : string;
}.

(** A non-empty [collaboration_request] dictionary. *)
Record CollaborationRequest := mkRequest {
  cr_requester : string;
  cr_target : string;
  cr_request : string;
}.

(** The value stored under ["collaboration_request"]: [{}] or a request. *)
Inductive CollabDict :=
| EmptyDict
| Request (r : CollaborationRequest).

(** The dictionary stored under ["pending_task"]. *)
Record PendingTask := mkPending {
  pt_device : string;
  pt_action : string;
  pt_waiting_for : string;
}.

(** The ["result"] field of a history entry: the text the Oracle produced
    (possibly [None]), or the [{"target", "request"}] pair of a delegation. *)
Inductive EntryResult :=
| Text (r : option string)
| Delegation (target request : string).

Record HistoryEntry := mkEntry {
  he_device : string;
  he_type : string;
  he_action_taken : string;
  he_result : EntryResult;
}.

(** [SmartHomeState].  The sixteen [<worker>_response] and [<worker>_result]
    keys are two maps indexed by the worker name [w], standing for the keys
    [w ++ "_response"] and [w ++ "_result"]: branch 2 of every worker builds
    the response key from a run-time string. *)
Record SmartHomeState := mkState {
  messages : list string;
  complexity_score : option nat;
  infos : option (list string);
  original_user_input : option string;
  task_queue : option (list Task);
  key_modifiers : option (list string);
  collaboration_request : option CollabDict;
  pending_task : option (option PendingTask);
  task_history : option (list HistoryEntry);
  responses : gmap string (option string);
  results : gmap string (option string);
}.

(** The [update] dictionary of a [Command]: a field is [None] when the key is
    not written.  The two maps hold the slot keys that are written. *)
Record Update := mkUpdate {
  u_original_user_input : option string;
  u_task_queue : option (list Task);
  u_collaboration_request : option CollabDict;
  u_pending_task : option (option PendingTask);
  u_task_history : option (list HistoryEntry);
  u_responses : gmap string (option string);
  u_results : gmap string (option string);
}.

(** [Command(update=..., goto=...)]; [goto] is a node name. *)
Record Command := mkCommand {
  update : Update;
  goto : option string;
}.

(** Python exceptions the modelled code can raise. *)
Inductive exn := IndexError | KeyError | TypeError.

Inductive outcome (A : Type) :=
| Return (a : A)
| Raise (e : exn).
Arguments Return {A} a.
Arguments Raise {A} e.

(* ------------------------------------------------------------------ *)
(** ** The Decision Oracle *)

(** What the worker reads from the reply of its new-task prompt:
    [result.get("response")] and [result.get("collaboration_request")], the
    latter a dictionary read with [.get("target")] and [["request"]]. *)
Record CollabReply := mkCollabReply {
  reply_target : option string;
  reply_request : option string;
}.

Record DecideReply := mkDecide {
  reply_response : option string;
  reply_collaboration : option CollabReply;
}.

(** The four prompts.  Each worker has its own prompt text, hence the
    leading worker name.  [ask_plan] yields [result.get("task_queue")];
    [ask_answer] and [ask_resume] yield [result.get("response")]. *)
Record Oracle := mkOracle {
  ask_plan : string → list string → list string → option (list Task);
  ask_answer : string → string → string → option string;
  ask_resume : string → string → list HistoryEntry → option CollabDict →
           string → option string → option string;
  ask_decide : string → string → list HistoryEntry → DecideReply;
}.

(** One [chain.invoke], with the variables handed to the prompt. *)
Inductive OracleCall :=
| PlanCall (original_input : string) (infos key_modifiers : list string)
| AnswerCall (worker requester request : string)
| ResumeCall (worker original_action : string)
    (history : list HistoryEntry) (collaboration : option CollabDict)
    (collaborator : string) (collaborator_response : option string)
| DecideCall (worker action : string) (history : list HistoryEntry).

(** What running a node once gives: the Oracle calls it made, and what the
    function returned (a [Command], Python's [None], or an exception). *)
Record Activation := mkActivation {
  calls : list OracleCall;
  result : outcome (option Command);
}.

(** Python truthiness of an optional string: present and not empty. *)
Definition truthy (o : option string) : bool :=
  match o with
  | Some s => negb (bool_decide (s = ""))
  | None => false
  end.

(** [f"{device}_agent"] *)
Definition agent_node (device : string) : string := device +:+ "_agent".

(* ------------------------------------------------------------------ *)
(** ** Orchestrator *)

Section Nodes.

Variable O : Oracle.

(** [task_planner] *)
Definition task_planner (state : SmartHomeState) : Activation :=
  let original_input := original_user_input state in
  let queue := default [] (task_queue state) in
  match queue with
  | current_task :: _ =>
      (* Continue executing the remaining tasks *)
      mkActivation []
        (Return (Some (mkCommand
           (mkUpdate None (Some queue) None None None ∅ ∅)
           (Some (agent_node (task_device current_task))))))
  | [] =>
      if truthy original_input then
        (* Fresh start, original_input is not empty *)
        let input := default "" original_input in
        let infos := default [] (infos state) in
        let key_modifiers := default [] (key_modifiers state) in
        let new_task_queue := ask_plan O input infos key_modifiers in
        mkActivation [PlanCall input infos key_modifiers]
          match new_task_queue with
          | None => Raise TypeError
          | Some [] => Raise IndexError
          | Some ((current_task :: _) as new_queue) =>
              Return (Some (mkCommand
                (mkUpdate (Some "") (Some new_queue) None None None ∅ ∅)
                (Some (agent_node (task_device current_task)))))
          end
      else
        mkActivation []
          (Return (Some (mkCommand
             (mkUpdate None (Some []) None None None ∅ ∅) None)))
  end.

(* ------------------------------------------------------------------ *)
(** ** Workers *)

(** What distinguishes the eight worker functions from one another: the name
    compared against targets, pending tasks and queue heads (and written
    into requests, pending tasks and slot keys); the name written into the
    ["device"] field of history entries; and whether [task_queue] is read
    with the default [[]] ([fridge_agent] reads it without). *)
Record WorkerConfig := mkWorker {
  identity : string;
  history_name : string;
  queue_default : bool;
}.

Section Worker.

Variable cfg : WorkerConfig.

(** Guard of branch 1:
    [collaboration_request and collaboration_request.get("target") == self] *)
Definition inbound_request (c : option CollabDict)
  : option CollaborationRequest :=
  match c with
  | Some (Request r) =>
      if decide (cr_target r = identity cfg) then Some r else None
  | _ => None
  end.

(** Guard of branch 2:
    [pending_task and pending_task.get("device") == self] *)
Definition own_pending (p : option PendingTask) : option PendingTask :=
  match p with
  | Some pt => if decide (pt_device pt = identity cfg) then Some pt else None
  | None => None
  end.

(** Guard of branch 3:
    [task_queue and task_queue[0].get("device") == self] *)
Definition own_head (q : option (list Task)) : option (Task * list Task) :=
  match q with
  | Some (t :: rest) =>
      if decide (task_device t = identity cfg) then Some (t, rest) else None
  | _ => None
  end.

(** The local [task_queue] of the function. *)
Definition local_queue (state : SmartHomeState) : option (list Task) :=
  if queue_default cfg then Some (default [] (task_queue state))
  else task_queue state.

(** Branch 1: respond to a collaboration request from another agent. *)
Definition respond (task_history : list HistoryEntry)
    (cr : CollaborationRequest) : Activation :=
  let requester := cr_requester cr in
  let request := cr_request cr in
  let response := ask_answer O (identity cfg) requester request in
  let new_entry :=
    mkEntry (history_name cfg) "collaboration_response" request
      (Text response) in
  mkActivation [AnswerCall (identity cfg) requester request]
    (Return (Some (mkCommand
       (mkUpdate None None (Some EmptyDict) None
          (Some (task_history ++ [new_entry]))
          {[ identity cfg := response ]} ∅)
       (Some (agent_node requester))))).

(** Branch 2: complete the pending task with the collaborator's response. *)
Definition complete_pending (state : SmartHomeState)
    (task_queue : option (list Task))
    (collaboration_request : option CollabDict)
    (task_history : list HistoryEntry) (pt : PendingTask) : Activation :=
  let collaborator := pt_waiting_for pt in
  let collaborator_response := mjoin (responses state !! collaborator) in
  let original_action := pt_action pt in
  let res :=
    ask_resume O (identity cfg) original_action task_history
      collaboration_request collaborator collaborator_response in
  mkActivation
    [ResumeCall (identity cfg) original_action task_history
       collaboration_request collaborator collaborator_response]
    match task_queue with
    | None => Raise TypeError
    | Some q =>
        let remaining_tasks := tail q in
        let new_entry :=
          mkEntry (history_name cfg) "task_completion" original_action
            (Text res) in
        Return (Some (mkCommand
          (mkUpdate None (Some remaining_tasks) (Some EmptyDict) (Some None)
             (Some (task_history ++ [new_entry]))
             {[ collaborator := None ]} {[ identity cfg := res ]})
          (Some "task_planner")))
    end.

(** Branch 3: handle the task at the head of the queue. *)
Definition handle_new_task (task_history : list HistoryEntry)
    (head : Task) (remaining_tasks : list Task) : Activation :=
  let action := task_action head in
  let reply := ask_decide O (identity cfg) action task_history in
  mkActivation [DecideCall (identity cfg) action task_history]
    match reply_collaboration reply with
    | Some collaboration =>
        if truthy (reply_target collaboration) then
          let target := default "" (reply_target collaboration) in
          match reply_request collaboration with
          | None => Raise KeyError
          | Some request =>
              let new_entry :=
                mkEntry (history_name cfg) "collaboration_request" action
                  (Delegation target request) in
              Return (Some (mkCommand
                (mkUpdate None None
                   (Some (Request (mkRequest (identity cfg) target request)))
                   (Some (Some (mkPending (identity cfg) action target)))
                   (Some (task_history ++ [new_entry])) ∅ ∅)
                (Some (agent_node target))))
          end
        else
          let res := reply_response reply in
          let new_entry :=
            mkEntry (history_name cfg) "task_completion" action (Text res) in
          Return (Some (mkCommand
            (mkUpdate None (Some remaining_tasks) None None
               (Some (task_history ++ [new_entry]))
               ∅ {[ identity cfg := res ]})
            (Some "task_planner")))
    | None =>
        let res := reply_response reply in
        let new_entry :=
          mkEntry (history_name cfg) "task_completion" action (Text res) in
        Return (Some (mkCommand
          (mkUpdate None (Some remaining_tasks) None None
             (Some (task_history ++ [new_entry]))
             ∅ {[ identity cfg := res ]})
          (Some "task_planner")))
    end.

(** The body shared by the eight [*_agent] functions: the
    [if] / [elif] / [elif] chain, and [None] when no guard holds. *)
Definition worker (state : SmartHomeState) : Activation :=
  let task_queue := local_queue state in
  let collaboration_request := collaboration_request state in
  let pending_task := mjoin (pending_task state) in
  let task_history := default [] (task_history state) in
  match inbound_request collaboration_request with
  | Some cr => respond task_history cr
  | None =>
      match own_pending pending_task with
      | Some pt =>
          complete_pending state task_queue collaboration_request
            task_history pt
      | None =>
          match own_head task_queue with
          | Some (head, rest) => handle_new_task task_history head rest
          | None => mkActivation [] (Return None)
          end
      end
  end.

End Worker.

Definition clock_cfg := mkWorker "clock" "clock" true.
Definition search_engine_cfg := mkWorker "search_engine" "search_engine" true.
Definition calendar_cfg := mkWorker "calendar" "calendar" true.
Definition tv_display_cfg := mkWorker "tv_display" "tv_display" true.
Definition fridge_cfg := mkWorker "fridge" "fridge" false.
Definition lighting_cfg := mkWorker "lighting" "lighting" true.
Definition thermostat_cfg := mkWorker "thermostat" "thermostat" true.
Definition audio_system_cfg := mkWorker "audio_system" "audio system" true.

Definition clock_agent := worker clock_cfg.
Definition search_engine_agent := worker search_engine_cfg.
Definition calendar_agent := worker calendar_cfg.
Definition tv_display_agent := worker tv_display_cfg.
Definition fridge_agent := worker fridge_cfg.
Definition lighting_agent := worker lighting_cfg.
Definition thermostat_agent := worker thermostat_cfg.
Definition audio_system_agent := worker audio_system_cfg.

(** The eight workers, in the order the graph registers them. *)
Definition workers : list WorkerConfig :=
  [clock_cfg; calendar_cfg; search_engine_cfg; tv_display_cfg;
   fridge_cfg; lighting_cfg; thermostat_cfg; audio_system_cfg].

(* ------------------------------------------------------------------ *)
(** ** The graph *)

(** How the graph runtime merges a [Command]'s [update] into the state: a
    written key replaces the stored value, other keys are kept.  (No modelled
    node writes ["messages"], the only key with a reducer.) *)
Definition write {A : Type} (new old : option A) : option A :=
  match new with
  | Some v => Some v
  | None => old
  end.

Definition apply_update (s : SmartHomeState) (u : Update) : SmartHomeState :=
  mkState (messages s) (complexity_score s) (infos s)
    (write (u_original_user_input u) (original_user_input s))
    (write (u_task_queue u) (task_queue s))
    (key_modifiers s)
    (write (u_collaboration_request u) (collaboration_request s))
    (write (u_pending_task u) (pending_task s))
    (write (u_task_history u) (task_history s))
    (u_responses u ∪ responses s)
    (u_results u ∪ results s).

(** The [builder.add_node] registrations of the orchestration core (the
    [human] and [intent_analysis] nodes run before [task_planner] and are
    summarised by [turn_entry] below; no [goto] of the nodes listed here can
    name them, as it is ["task_planner"] or ends in ["_agent"]). *)
Definition graph_nodes : list (string * (SmartHomeState → Activation)) :=
  [("task_planner", task_planner);
   ("clock_agent", clock_agent);
   ("calendar_agent", calendar_agent);
   ("search_engine_agent", search_engine_agent);
   ("tv_display_agent", tv_display_agent);
   ("fridge_agent", fridge_agent);
   ("lighting_agent", lighting_agent);
   ("thermostat_agent", thermostat_agent);
   ("audio_system_agent", audio_system_agent)].

Fixpoint assoc {A : Type} (name : string) (l : list (string * A)) : option A :=
  match l with
  | [] => None
  | (k, v) :: rest => if decide (k = name) then Some v else assoc name rest
  end.

Definition node (name : string) : option (SmartHomeState → Activation) :=
  assoc name graph_nodes.

(** One superstep.  The graph has no edge out of a worker and the edge
    [task_planner → END]: a node that names no successor ends the run, a
    worker that returns [None] ends it with the state as it was.  A [goto]
    that names no node of the graph is dropped by the runtime: the update is
    merged and the run ends as if no successor had been named.
    [UnknownNode] only says that a run cannot be started at a name that is
    no node. *)
Inductive StepResult :=
| Continue (s : SmartHomeState) (next : string)
| Finished (s : SmartHomeState)
| Failed (e : exn)
| UnknownNode (name : string).

(** The node a [goto] hands control to, if any. *)
Definition successor (goto : option string) : option string :=
  match goto with
  | Some next =>
      match node next with
      | Some _ => Some next
      | None => None
      end
  | None => None
  end.

(** Where a [Command] leads once its update is merged into [s']. *)
Definition hand_over (s' : SmartHomeState) (goto : option string)
  : StepResult :=
  match successor goto with
  | Some next => Continue s' next
  | None => Finished s'
  end.

Definition step (s : SmartHomeState) (name : string) : StepResult :=
  match node name with
  | None => UnknownNode name
  | Some f =>
      match result (f s) with
      | Raise e => Failed e
      | Return None => Finished s
      | Return (Some cmd) =>
          hand_over (apply_update s (update cmd)) (goto cmd)
      end
  end.

(** At most [fuel] supersteps from node [name]; the nodes that ran, in the
    order they ran, and where the run stands. *)
Fixpoint run (fuel : nat) (s : SmartHomeState) (name : string)
  : list string * StepResult :=
  match fuel with
  | 0 => ([], Continue s name)
  | S k =>
      match step s name with
      | Continue s' next =>
          let '(trace, r) := run k s' next in (name :: trace, r)
      | UnknownNode unknown => ([], UnknownNode unknown)
      | r => ([name], r)
      end
  end.

End Nodes.

Arguments successor : simpl never.

(** The state [task_planner] receives at the start of a turn: the driver's
    [initial_state] ([task_queue], [task_history] empty,
    [collaboration_request] [{}], no other key) after [human] and
    [intent_analysis] wrote the utterance and what was extracted from it. *)
Definition turn_entry (s : SmartHomeState) : Prop :=
  task_queue s = Some [] ∧
  collaboration_request s = Some EmptyDict ∧
  pending_task s = None ∧
  task_history s = Some [] ∧
  responses s = ∅ ∧
  results s = ∅.

(** Configurations (state, node about to run; [None] once the run is over)
    a turn can be in. *)
Inductive reachable (O : Oracle) : SmartHomeState → option string → Prop :=
| reachable_entry s :
    turn_entry s → reachable O s (Some "task_planner")
| reachable_continue s n s' n' :
    reachable O s (Some n) → step O s n = Continue s' n' →
    reachable O s' (Some n')
| reachable_finish s n s' :
    reachable O s (Some n) → step O s n = Finished s' →
    reachable O s' None.

(** The request held by the state, if it holds one. *)
Definition active (s : SmartHomeState) : option CollaborationRequest :=
  match collaboration_request s with
  | Some (Request r) => Some r
  | _ => None
  end.

(** [state.get("task_history", [])] *)
Definition history (s : SmartHomeState) : list HistoryEntry :=
  default [] (task_history s).

(** Number of entries of one type in a history. *)
Definition count_type (ty : string) (h : list HistoryEntry) : nat :=
  length (filter (λ e, he_type e = ty) h).

(** Requests recorded in the history that no recorded response answers. *)
Definition outstanding (h : list HistoryEntry) : nat :=
  count_type "collaboration_request" h - count_type "collaboration_response" h.

(** The ["device"] a graph node writes into its history entries. *)
Definition history_label (name : string) : option string :=
  (λ p, history_name p.2) <$>
    list_find (λ cfg, agent_node (identity cfg) = name) workers.

(** The state a step leaves behind, when its node returned. *)
Definition state_of (r : StepResult) : option SmartHomeState :=
  match r with
  | Continue s _ | Finished s => Some s
  | _ => None
  end.

(** With nothing pending, the node about to run is the planner or the
    worker that owns the queue head; when the run is over, a task left at
    the head of the queue is one whose device is no node of the graph. *)
Definition dispatched (O : Oracle) (s : SmartHomeState)
    (next : option string) : Prop :=
  match next with
  | None =>
      ∀ t rest, task_queue s = Some (t :: rest) →
                node O (agent_node (task_device t)) = None
  | Some n =>
      n = "task_planner" ∨
      ∃ t rest, task_queue s = Some (t :: rest) ∧
                n = agent_node (task_device t)
  end.

(** The protocol invariant of a turn.  The queue key is present; the history
    records one request more than responses exactly while a request is held;
    and a pending task exists only for a registered worker that owns the
    queue head, either while the request is held and control is where the
    delegation sent it (at the collaborator, or nowhere when the target is
    no node of the graph), or while the owner is about to run with the
    request cleared. *)
Definition protocol_inv (O : Oracle) (s : SmartHomeState)
    (next : option string) : Prop :=
  is_Some (task_queue s) ∧
  count_type "collaboration_request" (history s) =
    count_type "collaboration_response" (history s) +
    match active s with Some _ => 1 | None => 0 end ∧
  match mjoin (pending_task s) with
  | None => active s = None ∧ dispatched O s next
  | Some pt =>
      (∃ cfg, cfg ∈ workers ∧ identity cfg = pt_device pt) ∧
      (∃ t rest,
         task_queue s = Some (t :: rest) ∧ task_device t = pt_device pt) ∧
      ((∃ r, active s = Some r ∧ cr_requester r = pt_device pt ∧
             cr_target r = pt_waiting_for pt ∧
             next = successor O (Some (agent_node (cr_target r))))
       ∨ (active s = None ∧ next = Some (agent_node (pt_device pt))))
  end.

(** The values of the ["type"] field. *)
Definition entry_types : list string :=
  ["collaboration_request"; "collaboration_response"; "task_completion"].

(* ------------------------------------------------------------------ *)
(** ** Concrete inputs

    An Oracle and states on which the statements below are exercised: the
    recipe exchange between [search_engine] and [fridge], a planner that
    returns an empty plan, the state at the start of a turn, and a state in
    the middle of a two-task plan. *)

Definition recipe_task : Task :=
  mkTask "search_engine" "suggest recipes using available ingredients".

Definition recipe_oracle : Oracle :=
  mkOracle
    (λ _ _ _, Some [recipe_task])
    (λ _ _ _, Some "eggs, tomatoes, rice")
    (λ _ _ _ _ _ _, Some "tomato egg fried rice")
    (λ worker _ _,
       if decide (worker = "search_engine") then
         mkDecide (Some "")
           (Some (mkCollabReply (Some "fridge")
                    (Some "What ingredients are available?")))
       else mkDecide (Some "done") (Some (mkCollabReply None None))).

Definition empty_plan_oracle : Oracle :=
  mkOracle (λ _ _ _, Some []) (λ _ _ _, None) (λ _ _ _ _ _ _, None)
    (λ _ _ _, mkDecide None None).

Definition entry_state : SmartHomeState :=
  mkState ["What should I cook tonight?"] (Some 1)
    (Some ["What should I cook tonight?"])
    (Some "What should I cook tonight?")
    (Some []) (Some []) (Some EmptyDict) None (Some []) ∅ ∅.

Definition relax_state : SmartHomeState :=
  mkState ["I'm tired and need relax"] (Some 2)
    (Some ["I'm tired"; "need relax"]) (Some "")
    (Some [mkTask "audio_system" "play relaxing music";
           mkTask "lighting" "dim the lighting to help users relax"])
    (Some []) (Some EmptyDict) None (Some []) ∅ ∅.

(** Where the turn that starts in [entry_state] stands after [k] steps. *)
Definition recipe_state (k : nat) : SmartHomeState :=
  match (run recipe_oracle k entry_state "task_planner").2 with
  | Continue s _ | Finished s => s
  | _ => entry_state
  end.

(* ------------------------------------------------------------------ *)
(** ** The nodes that run before the planner

    [human] receives the utterance from [interrupt]; [intent_analysis] asks
    a fifth prompt for the information units and the key modifiers.  The
    state holds only what [human] wrote into ["messages"], so [messages] is
    the list of the contents of the human messages.  A character is a code
    point below 256. *)

(** [str.isspace] on one character. *)
Definition isspace (c : Ascii.ascii) : bool :=
  let n := Ascii.nat_of_ascii c in
  ((9 <=? n) && (n <=? 13)) || ((28 <=? n) && (n <=? 32))
  || (n =? 133) || (n =? 160).

(** [str.lower] on one character. *)
Definition lower_char (c : Ascii.ascii) : Ascii.ascii :=
  let n := Ascii.nat_of_ascii c in
  if ((65 <=? n) && (n <=? 90))
     || ((192 <=? n) && (n <=? 222) && negb (n =? 215))
  then Ascii.ascii_of_nat (n + 32) else c.

(** [str.lower] *)
Fixpoint lower (s : string) : string :=
  match s with
  | EmptyString => EmptyString
  | String c rest => String (lower_char c) (lower rest)
  end.

(** [str.lstrip], [str.rstrip] and [str.strip] without argument. *)
Fixpoint lstrip (s : string) : string :=
  match s with
  | EmptyString => EmptyString
  | String c rest => if isspace c then lstrip rest else s
  end.

Fixpoint rstrip (s : string) : string :=
  match s with
  | EmptyString => EmptyString
  | String c rest =>
      match rstrip rest with
      | EmptyString => if isspace c then EmptyString else String c EmptyString
      | kept => String c kept
      end
  end.

Definition strip (s : string) : string := rstrip (lstrip s).

(** [{"q", "quit", "exit"}] *)
Definition quit_words : list string := ["q"; "quit"; "exit"].

(** Exceptions of the two nodes. *)
Inductive entry_exn := SystemExit | ValueError | LenOfNone.

Inductive entry_outcome (A : Type) :=
| Proceed (a : A)
| Abort (e : entry_exn).
Arguments Proceed {A} a.
Arguments Abort {A} e.

(** The keys the two nodes write. *)
Record EntryUpdate := mkEntryUpdate {
  e_messages : option (list string);
  e_complexity_score : option nat;
  e_infos : option (list string);
  e_key_modifiers : option (list string);
  e_original_user_input : option string;
}.

Record EntryCommand := mkEntryCommand {
  entry_update : EntryUpdate;
  entry_goto : string;
}.

(** [human], with the string [interrupt] returns. *)
Definition human (user_input : string) (state : SmartHomeState)
  : entry_outcome EntryCommand :=
  if bool_decide (lower (strip user_input) ∈ quit_words) then Abort SystemExit
  else
    Proceed (mkEntryCommand
      (mkEntryUpdate (Some (messages state ++ [user_input])) None None None None)
      "intent_analysis").

(** [get_user_input]: the content of the first human message. *)
Definition get_user_input (state : SmartHomeState) : entry_outcome string :=
  match messages state with
  | msg :: _ => Proceed msg
  | [] => Abort ValueError
  end.

(** What [intent_analysis] reads from the reply of its prompt:
    [result.get("infos")] and [result.get("key_modifiers", [])]. *)
Record IntentReply := mkIntent {
  reply_infos : option (list string);
  reply_key_modifiers : option (list string);
}.

(** [intent_analysis], over the chain it invokes; the first component is the
    list of the messages handed to the chain. *)
Definition intent_analysis (analyse : string → IntentReply)
    (state : SmartHomeState) : list string * entry_outcome EntryCommand :=
  match get_user_input state with
  | Abort e => ([], Abort e)
  | Proceed user_message =>
      if bool_decide (user_message = "") then ([], Abort ValueError)
      else
        let result := analyse user_message in
        ([user_message],
         match reply_infos result with
         | None => Abort LenOfNone
         | Some infos =>
             let complexity_score := length infos in
             let key_modifiers := default [] (reply_key_modifiers result) in
             Proceed (mkEntryCommand
               (mkEntryUpdate None (Some complexity_score) (Some infos)
                  (Some key_modifiers) (Some user_message))
               "task_planner")
         end)
  end.

(** Merging an [EntryUpdate].  The list [human] writes under ["messages"]
    starts with the stored messages, which the [add_messages] reducer
    recognises, so the merged value is the written list. *)
Definition apply_entry_update (s : SmartHomeState) (u : EntryUpdate)
  : SmartHomeState :=
  mkState
    (default (messages s) (e_messages u))
    (write (e_complexity_score u) (complexity_score s))
    (write (e_infos u) (infos s))
    (write (e_original_user_input u) (original_user_input s))
    (task_queue s)
    (write (e_key_modifiers u) (key_modifiers s))
    (collaboration_request s) (pending_task s) (task_history s)
    (responses s) (results s).

(** [initial_state] of the benchmark driver. *)
Definition initial_state : SmartHomeState :=
  mkState [] None None None (Some []) None (Some EmptyDict) None (Some [])
    ∅ ∅.

(** [START → human → intent_analysis]: the state handed to [task_planner]. *)
Definition front_end (analyse : string → IntentReply) (user_input : string)
    (s : SmartHomeState) : entry_outcome SmartHomeState :=
  match human user_input s with
  | Abort e => Abort e
  | Proceed c1 =>
      let s1 := apply_entry_update s (entry_update c1) in
      match (intent_analysis analyse s1).2 with
      | Abort e => Abort e
      | Proceed c2 => Proceed (apply_entry_update s1 (entry_update c2))
      end
  end.

(* ------------------------------------------------------------------ *)
(** ** A turn as a whole *)

(** Whether a run stands at a node that has yet to run. *)
Definition paused (r : StepResult) : bool :=
  match r with
  | Continue _ _ => true
  | _ => false
  end.

(** The plan the first planner step of a turn obtains. *)
Definition planned (O : Oracle) (s : SmartHomeState) : list Task :=
  if truthy (original_user_input s) then
    default []
      (ask_plan O (default "" (original_user_input s))
         (default [] (infos s)) (default [] (key_modifiers s)))
  else [].

(** The actions of the [task_completion] entries, in history order. *)
Definition completed (h : list HistoryEntry) : list string :=
  he_action_taken <$> filter (λ e, he_type e = "task_completion") h.

(** Steps that suffice to finish the turn from a configuration. *)
Definition steps_left (s : SmartHomeState) (n : string) : nat :=
  let q := length (default [] (task_queue s)) in
  match mjoin (pending_task s) with
  | Some _ =>
      match active s with
      | Some _ => 4 * q - 1
      | None => 4 * q - 2
      end
  | None => if decide (n = "task_planner") then 4 * q + 1 else 4 * q
  end.

(** What holds of the plan while it is carried out: no utterance is left
    to plan; the plan is the tasks done followed by the queue; the
    completions recorded are those of the tasks done, which all have their
    result key written; a pending task is the head task; and a response
    slot holds a value only for the collaborator of a pending task whose
    request is cleared. *)
Definition plan_inv (plan : list Task) (s : SmartHomeState) : Prop :=
  truthy (original_user_input s) = false ∧
  (∃ finished,
     plan = finished ++ default [] (task_queue s) ∧
     completed (history s) = task_action <$> finished ∧
     ∀ t, t ∈ finished → is_Some (results s !! task_device t)) ∧
  (∀ pt, mjoin (pending_task s) = Some pt →
     ∃ t rest, task_queue s = Some (t :: rest) ∧ pt_action pt = task_action t) ∧
  (∀ w v, responses s !! w = Some (Some v) →
     ∃ pt, mjoin (pending_task s) = Some pt ∧ active s = None ∧
           w = pt_waiting_for pt).

(** The Oracle calls of one superstep. *)
Definition step_calls (O : Oracle) (s : SmartHomeState) (name : string)
  : list OracleCall :=
  match node O name with
  | Some f => calls (f s)
  | None => []
  end.

(** The Oracle calls of a run, in the order they are made. *)
Fixpoint run_calls (O : Oracle) (fuel : nat) (s : SmartHomeState)
    (name : string) : list OracleCall :=
  match fuel with
  | 0 => []
  | S k =>
      step_calls O s name ++
      match step O s name with
      | Continue s' next => run_calls O k s' next
      | _ => []
      end
  end.

(* ------------------------------------------------------------------ *)
(** ** Further concrete inputs

    The three-task plan the planning prompt gives for "I'm tired and need
    relax", carried out without collaboration. *)

Definition relax_plan : list Task :=
  [mkTask "audio_system" "play relaxing music";
   mkTask "lighting" "dim the lighting to help users relax";
   mkTask "thermostat"
     "set a comfortable temperature for users to relax better"].

Definition relax_oracle : Oracle :=
  mkOracle
    (λ _ _ _, Some relax_plan)
    (λ _ _ _, None)
    (λ _ _ _ _ _ _, None)
    (λ worker _ _, mkDecide (Some (worker +:+ " done")) None).

Definition relax_entry : SmartHomeState :=
  mkState ["I'm tired and need relax"] (Some 2)
    (Some ["I'm tired"; "need relax"]) (Some "I'm tired and need relax")
    (Some []) (Some []) (Some EmptyDict) None (Some []) ∅ ∅.

(** An Oracle whose new-task reply names a target and no request. *)
Definition careless_oracle : Oracle :=
  mkOracle
    (λ _ _ _, Some relax_plan)
    (λ _ _ _, None)
    (λ _ _ _ _ _ _, None)
    (λ _ _ _, mkDecide None (Some (mkCollabReply (Some "clock") None))).

(** An Oracle that plans for a device the graph has no node for. *)
Definition toaster_oracle : Oracle :=
  mkOracle
    (λ _ _ _, Some [mkTask "toaster" "toast two slices of bread"])
    (λ _ _ _, None)
    (λ _ _ _ _ _ _, None)
    (λ _ _ _, mkDecide None None).

(** An Oracle whose new-task reply delegates to a name that is no worker. *)
Definition stray_oracle : Oracle :=
  mkOracle
    (λ _ _ _, Some [recipe_task])
    (λ _ _ _, None)
    (λ _ _ _ _ _ _, None)
    (λ _ _ _,
       mkDecide None
         (Some (mkCollabReply (Some "pantry") (Some "What is in stock?")))).

(** A state without the ["task_queue"] key in which [fridge] and [clock]
    have a task pending. *)
Definition no_queue_state (device : string) : SmartHomeState :=
  mkState [] None None None None None (Some EmptyDict)
    (Some (Some (mkPending device "what's in the fridge" "search_engine")))
    (Some []) ∅ ∅.

(** A thread that is used for a second utterance. *)
Definition second_turn_state : SmartHomeState :=
  mkState ["play relaxing music"] (Some 1) (Some ["play relaxing music"])
    (Some "") (Some []) (Some []) (Some EmptyDict) (Some None)
    (Some [mkEntry "audio system" "task_completion" "play relaxing music"
             (Text (Some "Playing relaxing music"))])
    ∅ {[ "audio_system" := Some "Playing relaxing music" ]}.

(* ------------------------------------------------------------------ *)
(** ** The benchmark driver's log

    What the loop over [graph.stream] appends to [log_lines] for one event:
    [state] is the update the node returned.  [json.dumps] is a
    parameter. *)

(** ["-" * 70] *)
Definition dashes : string :=
  "----------------------------------------------------------------------".

(** [response_keys] and [result_keys]: the slot of each worker and the name
    it is logged under, in the order of the dictionaries. *)
Definition display_names : list (string * string) :=
  [("clock", "Clock"); ("calendar", "Calendar");
   ("search_engine", "Search Engine"); ("tv_display", "TV Display");
   ("fridge", "Fridge"); ("lighting", "Lighting");
   ("thermostat", "Thermostat"); ("audio_system", "Audio System")].

Definition log_request (state : Update) : list string :=
  match u_collaboration_request state with
  | Some (Request collab) =>
      if truthy (Some (cr_target collab)) then
        ["COLLABORATION REQUEST:";
         "   From: " +:+ cr_requester collab;
         "   To: " +:+ cr_target collab;
         "   Request: " +:+ cr_request collab;
         ""]
      else []
  | _ => []
  end.

Definition log_pending (state : Update) : list string :=
  match mjoin (u_pending_task state) with
  | Some pending =>
      ["PENDING TASK:";
       "   Device: " +:+ pt_device pending;
       "   Action: " +:+ pt_action pending;
       "   Waiting for: " +:+ pt_waiting_for pending;
       ""]
  | None => []
  end.

Definition log_queue (dumps : list Task → string) (node_name : string)
    (state : Update) : list string :=
  if decide (node_name = "task_planner") then
    match u_task_queue state with
    | Some (t :: rest) => ["Task Queue: " +:+ dumps (t :: rest); ""]
    | _ => []
    end
  else [].

Definition log_responses (state : Update) : list string :=
  flat_map
    (λ entry,
       if truthy (mjoin (u_responses state !! entry.1)) then
         ["COLLABORATION RESPONSE from " +:+ entry.2 +:+ ":";
          "   " +:+ default "" (mjoin (u_responses state !! entry.1));
          ""]
       else [])
    display_names.

Definition log_results (state : Update) : list string :=
  flat_map
    (λ entry,
       if truthy (mjoin (u_results state !! entry.1)) then
         [entry.2 +:+ " RESULT: " +:+
            default "" (mjoin (u_results state !! entry.1));
          ""]
       else [])
    display_names.

Definition log_event (dumps : list Task → string) (node_name : string)
    (state : Update) : list string :=
  if decide (node_name = "human") then []
  else
    ["Node: " +:+ node_name; dashes]
    ++ log_request state
    ++ log_pending state
    ++ log_queue dumps node_name state
    ++ log_responses state
    ++ log_results state
    ++ [""].

(** The name a worker's slots are logged under. *)
Definition display_name (cfg : WorkerConfig) : string :=
  default "" (assoc (identity cfg) display_names).

(** What [search_engine_agent] returns in the recipe turn when it
    delegates to [fridge]. *)
Definition recipe_delegation : Command :=
  mkCommand
    (mkUpdate None None
       (Some (Request (mkRequest "search_engine" "fridge"
                         "What ingredients are available?")))
       (Some (Some (mkPending "search_engine"
                      "suggest recipes using available ingredients"
                      "fridge")))
       (Some [mkEntry "search_engine" "collaboration_request"
                "suggest recipes using available ingredients"
                (Delegation "fridge" "What ingredients are available?")])
       ∅ ∅)
    (Some "fridge_agent").

(* ------------------------------------------------------------------ *)
(** ** Node names

    Control is handed over by name ([f"{...}_agent"]); the protocol relies on
    a worker's node name determining the worker, and on the planner's name
    not being the name of any worker node. *)

Lemma append_length (a b : string) :
  String.length (a +:+ b) = String.length a + String.length b.
Proof. induction a as [|x a IH]; simpl; [done | by rewrite IH]. Qed.

Lemma append_cancel_r (c a b : string) : a +:+ c = b +:+ c → a = b.
Proof.
  revert b. induction a as [|x a IH]; intros [|y b] H; simpl in H.
  - done.
  - apply (f_equal String.length) in H.
    rewrite !append_length in H. simpl in H. lia.
  - apply (f_equal String.length) in H.
    rewrite !append_length in H. simpl in H. lia.
  - injection H as -> H. f_equal. by apply IH.
Qed.

Lemma agent_node_inj (a b : string) : agent_node a = agent_node b → a = b.
Proof. apply append_cancel_r. Qed.

Lemma agent_node_not_planner (d : string) : agent_node d ≠ "task_planner".
Proof.
  unfold agent_node. intros H.
  do 7 (destruct d as [|? d];
        [simpl in H; (discriminate H || (injection H; intros; discriminate))|]).
  apply (f_equal String.length) in H. rewrite append_length in H.
  simpl in H. lia.
Qed.

(* ------------------------------------------------------------------ *)
(** ** The protocol invariant *)

Section Protocol.

Variable O : Oracle.

(** The registered nodes are the planner and the eight workers, each worker
    under the name built from its own. *)
Lemma node_cases (n : string) (f : SmartHomeState → Activation) :
  node O n = Some f →
  (n = "task_planner" ∧ f = task_planner O) ∨
  (∃ cfg, cfg ∈ workers ∧ n = agent_node (identity cfg) ∧ f = worker O cfg).
Proof.
  unfold node, graph_nodes. simpl.
  repeat case_decide; intros Hf; simplify_eq; [by left | right ..];
    (eexists; (split; [|split]); cycle 2;
     [reflexivity | unfold workers; set_solver | reflexivity]).
Qed.

Lemma node_worker (cfg : WorkerConfig) :
  cfg ∈ workers → node O (agent_node (identity cfg)) = Some (worker O cfg).
Proof.
  unfold workers. rewrite !elem_of_cons, elem_of_nil.
  intros H; decompose [or] H; subst; try done.
Qed.

Lemma count_type_snoc (ty : string) (h : list HistoryEntry) (e : HistoryEntry) :
  count_type ty (h ++ [e]) =
  count_type ty h + (if decide (he_type e = ty) then 1 else 0).
Proof.
  unfold count_type. rewrite filter_app, length_app. f_equal.
  rewrite filter_cons, filter_nil. by case_decide.
Qed.

(** Control is handed only to nodes of the graph. *)
Lemma successor_Some (goto : option string) (n : string) :
  successor O goto = Some n → goto = Some n ∧ is_Some (node O n).
Proof.
  unfold successor. destruct goto as [m|]; [|done].
  destruct (node O m) as [f|] eqn:Hnode; [|done].
  intros [= <-]. by rewrite Hnode.
Qed.

Lemma successor_None (goto : option string) :
  successor O goto = None →
  goto = None ∨ ∃ n, goto = Some n ∧ node O n = None.
Proof.
  unfold successor. destruct goto as [m|]; [|by left].
  destruct (node O m) as [f|] eqn:Hnode; [done|]. right. by exists m.
Qed.

Lemma successor_worker (cfg : WorkerConfig) :
  cfg ∈ workers →
  successor O (Some (agent_node (identity cfg))) =
    Some (agent_node (identity cfg)).
Proof. intros Hcfg. unfold successor. by rewrite (node_worker cfg Hcfg). Qed.

Lemma step_continue (s s' : SmartHomeState) (n n' : string) :
  step O s n = Continue s' n' → is_Some (node O n').
Proof.
  unfold step, hand_over. destruct (node O n) as [f|]; [|done].
  destruct (result (f s)) as [[cmd|]|]; try done.
  destruct (successor O (goto cmd)) as [m|] eqn:Hm; [|done].
  intros [= _ <-]. by apply successor_Some in Hm as [_ ?].
Qed.

(** What the invariant tells the worker that is about to run. *)
Lemma inv_not_inbound (cfg : WorkerConfig) (s : SmartHomeState) :
  protocol_inv O s (Some (agent_node (identity cfg))) →
  inbound_request cfg (collaboration_request s) = None →
  active s = None.
Proof.
  unfold protocol_inv, inbound_request, active.
  intros (_ & _ & Hpend) Hin.
  destruct (collaboration_request s) as [[|r]|]; try done.
  destruct (mjoin (pending_task s)) as [pt|]; [|by destruct Hpend].
  destruct Hpend as (_ & _ & [(r' & Hr & _ & _ & Hn)|[? _]]); [|done].
  symmetry in Hn. apply successor_Some in Hn as [Hn _].
  simplify_eq. apply agent_node_inj in Hn. by case_decide.
Qed.

Lemma inv_own_pending (cfg : WorkerConfig) (s : SmartHomeState)
    (pt : PendingTask) :
  protocol_inv O s (Some (agent_node (identity cfg))) →
  inbound_request cfg (collaboration_request s) = None →
  mjoin (pending_task s) = Some pt →
  pt_device pt = identity cfg ∧
  ∃ t rest, task_queue s = Some (t :: rest) ∧ task_device t = pt_device pt.
Proof.
  intros Hinv Hin Hpt. pose proof (inv_not_inbound _ _ Hinv Hin) as Hact.
  destruct Hinv as (_ & _ & Hpend). rewrite Hpt in Hpend.
  destruct Hpend as (_ & Hhead & [(r & Hr & _)|[_ Hn]]); [congruence|].
  split; [|done]. injection Hn as Hn. by apply agent_node_inj in Hn.
Qed.

(** In a turn a worker never runs with all three guards false. *)
Lemma worker_always_matches (cfg : WorkerConfig) (s : SmartHomeState) :
  protocol_inv O s (Some (agent_node (identity cfg))) →
  result (worker O cfg s) ≠ Return None.
Proof.
  intros Hinv. unfold worker.
  pose proof (inv_own_pending cfg s) as Hown. specialize (λ pt, Hown pt Hinv).
  destruct (inbound_request _ _) as [cr|]; [done|].
  destruct Hinv as (_ & _ & Hpend).
  destruct (mjoin (pending_task s)) as [pt|].
  { destruct (Hown pt eq_refl eq_refl) as (Hdev & _).
    unfold own_pending. rewrite decide_True by done.
    unfold complete_pending. by destruct (local_queue cfg s). }
  destruct Hpend as (_ & [Hn|(t & rest & Hq & Hn)]);
    [by apply agent_node_not_planner in Hn|].
  apply agent_node_inj in Hn. simpl.
  unfold local_queue. rewrite Hq.
  replace (if queue_default cfg then Some (default [] (Some (t :: rest)))
           else Some (t :: rest)) with (Some (t :: rest))
    by (by destruct (queue_default cfg)).
  unfold own_head. rewrite decide_True by done.
  unfold handle_new_task. simpl.
  destruct (reply_collaboration _) as [c|]; [|done].
  destruct (truthy _); [|done]. by destruct (reply_request c).
Qed.

(** Every node preserves the invariant. *)
Lemma worker_inv (cfg : WorkerConfig) (s : SmartHomeState) (cmd : Command) :
  cfg ∈ workers →
  protocol_inv O s (Some (agent_node (identity cfg))) →
  result (worker O cfg s) = Return (Some cmd) →
  protocol_inv O (apply_update s (update cmd)) (successor O (goto cmd)).
Proof.
  intros Hcfg Hinv.
  pose proof (inv_not_inbound cfg s Hinv) as Hidle.
  pose proof (inv_own_pending cfg s) as Hown. specialize (λ pt, Hown pt Hinv).
  destruct Hinv as (Hq & Hcount & Hpend). revert Hq Hcount Hpend Hidle Hown.
  destruct s as [msgs score inf input queue mods collab pending hist resp res].
  unfold protocol_inv, worker, active, history. simpl.
  intros Hq Hcount Hpend Hidle Hown.
  destruct (inbound_request cfg collab) as [cr|] eqn:Hin.
  - (* branch 1 *)
    unfold inbound_request in Hin.
    destruct collab as [[|r]|]; try done. case_decide; simplify_eq.
    intros [= <-]. simpl. rewrite !count_type_snoc. simpl.
    split; [done|]. split; [lia|].
    destruct (mjoin pending) as [pt|] eqn:Hpt; [|by destruct Hpend].
    destruct Hpend as ((cfg2 & Hcfg2 & Hid2) & Hhead &
                       [(r & Hr & Hreq & Htg & _)|[? _]]); [|done].
    simplify_eq. split; [by exists cfg2|]. split; [done|]. right.
    split; [done|]. by rewrite Hreq, <-Hid2, successor_worker.
  - specialize (Hidle eq_refl). rewrite Hidle in Hcount.
    destruct (own_pending cfg (mjoin pending)) as [pt|] eqn:Hown_pt.
    + (* branch 2 *)
      unfold own_pending in Hown_pt.
      destruct (mjoin pending) as [pt'|] eqn:Hpt; [|done].
      case_decide; simplify_eq.
      destruct (Hown pt eq_refl eq_refl) as (_ & t & rest & -> & _).
      unfold complete_pending, local_queue. simpl.
      destruct (queue_default cfg); simpl;
        intros [= <-]; simpl; rewrite !count_type_snoc; simpl;
        (split; [done|]); (split; [lia|]); (split; [done | by left]).
    + (* branch 3 *)
      assert (mjoin pending = None) as Hnone.
      { destruct (mjoin pending) as [pt|] eqn:Hpt; [|done].
        destruct (Hown pt eq_refl eq_refl) as (Hdev & _).
        unfold own_pending in Hown_pt. by case_decide. }
      rewrite Hnone in Hpend.
      destruct (own_head cfg _) as [[t rest]|] eqn:Hhead; [|done].
      assert (queue = Some (t :: rest) ∧ task_device t = identity cfg)
        as [-> Hdev].
      { unfold own_head, local_queue in Hhead. simpl in Hhead.
        destruct (queue_default cfg), queue as [[|t' rest']|];
          simpl in Hhead; try done; case_decide; by simplify_eq. }
      unfold handle_new_task. simpl.
      destruct (reply_collaboration _) as [c|]; simpl.
      * destruct (truthy (reply_target c)) eqn:Htruthy.
        -- destruct (reply_request c) as [rq|]; [|done].
           intros [= <-]. simpl. rewrite !count_type_snoc. simpl.
           split; [done|]. split; [lia|]. split; [by eauto|].
           split; [by eauto|]. left. eexists. by repeat split.
        -- intros [= <-]. simpl. rewrite !count_type_snoc. simpl.
           rewrite Hnone, Hidle. split; [done|]. split; [lia|].
           split; [done | by left].
      * intros [= <-]. simpl. rewrite !count_type_snoc. simpl.
        rewrite Hnone, Hidle. split; [done|]. split; [lia|].
        split; [done | by left].
Qed.

Lemma inv_planner_idle (s : SmartHomeState) :
  protocol_inv O s (Some "task_planner") →
  mjoin (pending_task s) = None ∧ active s = None.
Proof.
  intros (_ & _ & Hpend).
  destruct (mjoin (pending_task s)) as [pt|]; [|by destruct Hpend].
  destruct Hpend as (_ & _ & [(r & _ & _ & _ & Hn)|[_ Hn]]).
  - symmetry in Hn. apply successor_Some in Hn as [Hn _].
    injection Hn as Hn. by apply agent_node_not_planner in Hn.
  - injection Hn as Hn. symmetry in Hn. by apply agent_node_not_planner in Hn.
Qed.

Lemma planner_inv (s : SmartHomeState) (cmd : Command) :
  protocol_inv O s (Some "task_planner") →
  result (task_planner O s) = Return (Some cmd) →
  protocol_inv O (apply_update s (update cmd)) (successor O (goto cmd)).
Proof.
  intros Hinv. destruct (inv_planner_idle s Hinv) as [Hnone Hidle].
  destruct Hinv as (Hq & Hcount & _). revert Hq Hcount Hnone Hidle.
  destruct s as [msgs score inf input queue mods collab pending hist resp res].
  unfold protocol_inv, task_planner, active, history. simpl.
  intros Hq Hcount Hnone Hidle.
  assert (∀ t rest,
            dispatched O
              (mkState msgs score inf input (Some (t :: rest)) mods collab
                 pending hist resp res)
              (successor O (Some (agent_node (task_device t)))) ∧
            dispatched O
              (mkState msgs score inf (Some "") (Some (t :: rest)) mods collab
                 pending hist resp res)
              (successor O (Some (agent_node (task_device t))))) as Hgo.
  { intros t rest. unfold successor.
    destruct (node O (agent_node (task_device t))) as [f|] eqn:Hnode.
    - split; right; by eauto.
    - split; intros t' rest' [= <- _]; done. }
  destruct (default [] queue) as [|t rest]; simpl.
  - destruct (truthy input); simpl.
    + destruct (ask_plan O _ _ _) as [[|t rest]|]; try done.
      intros [= <-]. simpl. rewrite Hnone.
      repeat split; try done. apply Hgo.
    + intros [= <-]. simpl. rewrite Hnone. repeat split; try done.
  - intros [= <-]. simpl. rewrite Hnone.
    repeat split; try done. apply Hgo.
Qed.

Lemma step_inv (s : SmartHomeState) (n : string) :
  protocol_inv O s (Some n) →
  match step O s n with
  | Continue s' n' => protocol_inv O s' (Some n')
  | Finished s' => protocol_inv O s' None
  | _ => True
  end.
Proof.
  intros Hinv. unfold step, hand_over.
  destruct (node O n) as [f|] eqn:Hnode; [|done].
  apply node_cases in Hnode as [[-> ->]|(cfg & Hcfg & -> & ->)].
  - pose proof (planner_inv s) as Hstep.
    destruct (result (task_planner O s)) as [[cmd|]|] eqn:Hres; try done.
    + specialize (Hstep cmd Hinv eq_refl).
      by destruct (successor O (goto cmd)).
    + exfalso. revert Hres. unfold task_planner.
      destruct (default [] (task_queue s)); [|done].
      destruct (truthy _); [|done].
      by destruct (ask_plan O _ _ _) as [[|]|].
  - pose proof (worker_inv cfg s) as Hstep.
    pose proof (worker_always_matches cfg s Hinv) as Hsome.
    destruct (result (worker O cfg s)) as [[cmd|]|]; try done.
    specialize (Hstep cmd Hcfg Hinv eq_refl).
    by destruct (successor O (goto cmd)).
Qed.

Lemma entry_inv (s : SmartHomeState) :
  turn_entry s → protocol_inv O s (Some "task_planner").
Proof.
  intros (Hq & Hc & Hp & Hh & _ & _).
  unfold protocol_inv, active, history. rewrite Hq, Hc, Hp, Hh. simpl.
  split; [done|]. split; [done|]. split; [done | by left].
Qed.

Lemma reachable_inv (s : SmartHomeState) (next : option string) :
  reachable O s next → protocol_inv O s next.
Proof.
  induction 1 as [s Hentry|s n s' n' _ IH Hstep|s n s' _ IH Hstep].
  - by apply entry_inv.
  - apply step_inv in IH. by rewrite Hstep in IH.
  - apply step_inv in IH. by rewrite Hstep in IH.
Qed.

(** In a turn, control only ever stands at a node of the graph. *)
Lemma reachable_registered (s : SmartHomeState) (n : string) :
  reachable O s (Some n) → is_Some (node O n).
Proof.
  inversion 1; subst; [by eexists | by eapply step_continue].
Qed.

Lemma run_reachable (fuel : nat) (s : SmartHomeState) (n : string) :
  reachable O s (Some n) →
  match (run O fuel s n).2 with
  | Continue s' n' => reachable O s' (Some n')
  | Finished s' => reachable O s' None
  | _ => True
  end.
Proof.
  revert s n. induction fuel as [|k IH]; intros s n Hreach; simpl; [done|].
  destruct (step O s n) as [s' n'| s' | |] eqn:Hstep; simpl; try done.
  - specialize (IH s' n' (reachable_continue O s n s' n' Hreach Hstep)).
    by destruct (run O k s' n').
  - by eapply reachable_finish.
Qed.

(** *** Single activations *)

Lemma worker_branch (cfg : WorkerConfig) (s : SmartHomeState) :
  worker O cfg s =
  match inbound_request cfg (collaboration_request s) with
  | Some cr => respond O cfg (history s) cr
  | None =>
      match own_pending cfg (mjoin (pending_task s)) with
      | Some pt =>
          complete_pending O cfg s (local_queue cfg s)
            (collaboration_request s) (history s) pt
      | None =>
          match own_head cfg (local_queue cfg s) with
          | Some (head, rest) => handle_new_task O cfg (history s) head rest
          | None => mkActivation [] (Return None)
          end
      end
  end.
Proof. reflexivity. Qed.

Lemma worker_appends (cfg : WorkerConfig) (s : SmartHomeState) (cmd : Command) :
  result (worker O cfg s) = Return (Some cmd) →
  ∃ e, u_task_history (update cmd) = Some (history s ++ [e]) ∧
       he_device e = history_name cfg ∧
       he_type e ∈ entry_types ∧
       is_Some (goto cmd).
Proof.
  rewrite worker_branch. unfold entry_types.
  destruct (inbound_request _ _) as [cr|].
  { intros [= <-]. eexists. repeat split; [set_solver | by eexists]. }
  destruct (own_pending _ _) as [pt|].
  { unfold complete_pending. destruct (local_queue cfg s); [|done].
    intros [= <-]. eexists. repeat split; [set_solver | by eexists]. }
  destruct (own_head _ _) as [[t rest]|]; [|done].
  unfold handle_new_task. simpl.
  destruct (reply_collaboration _) as [c|];
    [destruct (truthy _); [destruct (reply_request c); [|done]|]|];
    intros [= <-]; eexists; (repeat split; [set_solver | by eexists]).
Qed.

Lemma history_apply (s : SmartHomeState) (u : Update) (h : list HistoryEntry) :
  u_task_history u = Some h → history (apply_update s u) = h.
Proof. unfold history. simpl. by intros ->. Qed.

Lemma history_label_worker (cfg : WorkerConfig) :
  cfg ∈ workers →
  history_label (agent_node (identity cfg)) = Some (history_name cfg).
Proof.
  unfold workers. rewrite !elem_of_cons, elem_of_nil.
  intros H; decompose [or] H; subst; try done.
Qed.

Lemma step_history (s : SmartHomeState) (n : string) :
  match step O s n with
  | Continue s' _ =>
      ∃ es, history s' = history s ++ es ∧
            he_device <$> es = option_list (history_label n)
  | Finished s' =>
      (∃ es, history s' = history s ++ es ∧
             he_device <$> es = option_list (history_label n)) ∨
      (∃ cfg, cfg ∈ workers ∧ n = agent_node (identity cfg) ∧
              result (worker O cfg s) = Return None)
  | _ => True
  end.
Proof.
  unfold step, hand_over. destruct (node O n) as [f|] eqn:Hnode; [|done].
  apply node_cases in Hnode as [[-> ->]|(cfg & Hcfg & -> & ->)].
  - assert (∀ cmd, result (task_planner O s) = Return (Some cmd) →
              u_task_history (update cmd) = None) as Hplan.
    { unfold task_planner. intros cmd.
      destruct (default [] (task_queue s)); simpl; [|by intros [= <-]].
      destruct (truthy _); simpl; [|by intros [= <-]].
      destruct (ask_plan O _ _ _) as [[|]|]; try done. by intros [= <-]. }
    destruct (result (task_planner O s)) as [[cmd|]|]; try done.
    + specialize (Hplan cmd eq_refl).
      assert (history (apply_update s (update cmd)) = history s) as Hsame.
      { unfold history. simpl. by rewrite Hplan. }
      destruct (successor O (goto cmd)); [|left];
        exists []; by rewrite app_nil_r.
    + left. exists []. by rewrite app_nil_r.
  - pose proof (worker_appends cfg s) as Happ.
    destruct (result (worker O cfg s)) as [[cmd|]|] eqn:Hres; try done.
    + destruct (Happ cmd eq_refl) as (e & Hu & Hdev & _).
      assert (∃ es, history (apply_update s (update cmd)) = history s ++ es ∧
                he_device <$> es =
                  option_list (history_label (agent_node (identity cfg))))
        as Hes.
      { exists [e]. rewrite (history_apply _ _ _ Hu).
        rewrite history_label_worker by done. simpl. by rewrite Hdev. }
      destruct (successor O (goto cmd)); [done | by left].
    + right. by exists cfg.
Qed.

(** A run that is paused: every node of the trace returned a [Command]. *)
Lemma run_history (fuel : nat) (s : SmartHomeState) (n : string) :
  match run O fuel s n with
  | (trace, Continue s' _) =>
      ∃ es, history s' = history s ++ es ∧
            he_device <$> es = omap history_label trace
  | _ => True
  end.
Proof.
  revert s n. induction fuel as [|k IH]; intros s n; simpl.
  { exists []. by rewrite app_nil_r. }
  pose proof (step_history s n) as Hstep.
  destruct (step O s n) as [s1 n1|s1| |]; try done.
  destruct Hstep as (es1 & Hh1 & Hl1). specialize (IH s1 n1).
  destruct (run O k s1 n1) as [trace [s2 n2|s2| |]]; try done.
  destruct IH as (es2 & Hh2 & Hl2). exists (es1 ++ es2).
  rewrite Hh2, Hh1, <-app_assoc. split; [done|].
  rewrite fmap_app, Hl1, Hl2. simpl. by destruct (history_label n).
Qed.

(** A run inside a turn, paused or over: every node of the trace ran, and
    every worker among them left its entry. *)
Lemma run_history_turn (fuel : nat) (s : SmartHomeState) (n : string) :
  protocol_inv O s (Some n) →
  match run O fuel s n with
  | (trace, Continue s' _) | (trace, Finished s') =>
      ∃ es, history s' = history s ++ es ∧
            he_device <$> es = omap history_label trace
  | _ => True
  end.
Proof.
  revert s n. induction fuel as [|k IH]; intros s n Hinv; simpl.
  { exists []. by rewrite app_nil_r. }
  pose proof (step_history s n) as Hstep.
  pose proof (step_inv s n Hinv) as Hinv'.
  destruct (step O s n) as [s1 n1|s1| |]; try done.
  - destruct Hstep as (es1 & Hh1 & Hl1). specialize (IH s1 n1 Hinv').
    destruct (run O k s1 n1) as [trace [s2 n2|s2| |]]; try done;
      destruct IH as (es2 & Hh2 & Hl2); exists (es1 ++ es2);
      rewrite Hh2, Hh1, <-app_assoc; (split; [done|]);
      rewrite fmap_app, Hl1, Hl2; simpl; by destruct (history_label n).
  - destruct Hstep as [(es & Hh & Hl)|(cfg & Hcfg & -> & Hres)].
    + exists es. split; [done|]. rewrite Hl. simpl.
      by destruct (history_label n).
    + by apply worker_always_matches in Hinv.
Qed.

Lemma worker_step_queue (cfg : WorkerConfig) (s : SmartHomeState)
    (cmd : Command) :
  protocol_inv O s (Some (agent_node (identity cfg))) →
  result (worker O cfg s) = Return (Some cmd) →
  ∃ e, u_task_history (update cmd) = Some (history s ++ [e]) ∧
    ((he_type e = "task_completion" ∧
      ∃ t rest, task_queue s = Some (t :: rest) ∧
                u_task_queue (update cmd) = Some rest) ∨
     ((he_type e = "collaboration_request" ∨
       he_type e = "collaboration_response") ∧
      u_task_queue (update cmd) = None)).
Proof.
  intros Hinv. rewrite worker_branch.
  pose proof (inv_own_pending cfg s) as Hown. specialize (λ pt, Hown pt Hinv).
  destruct (inbound_request _ _) as [cr|].
  { intros [= <-]. eexists. split; [done|]. right. simpl. by eauto. }
  destruct (own_pending _ _) as [pt|] eqn:Hpt.
  { unfold own_pending in Hpt.
    destruct (mjoin (pending_task s)) as [pt'|]; [|done].
    case_decide; simplify_eq.
    destruct (Hown pt eq_refl eq_refl) as (_ & t & rest & Hq & _).
    unfold complete_pending, local_queue. rewrite Hq.
    destruct (queue_default cfg); simpl; intros [= <-]; simpl;
      (eexists; split; [done|]); left; by eauto. }
  destruct (own_head _ _) as [[t rest]|] eqn:Hhead; [|done].
  assert (task_queue s = Some (t :: rest)) as Hq.
  { unfold own_head, local_queue in Hhead.
    destruct (queue_default cfg), (task_queue s) as [[|t' rest']|];
      simpl in Hhead; try done; case_decide; by simplify_eq. }
  unfold handle_new_task. simpl.
  destruct (reply_collaboration _) as [c|];
    [destruct (truthy _); [destruct (reply_request c); [|done]|]|];
    intros [= <-]; simpl; (eexists; split; [done|]); simpl; by eauto 10.
Qed.

Lemma resume_step (cfg : WorkerConfig) (s : SmartHomeState) (pt : PendingTask) :
  cfg ∈ workers →
  protocol_inv O s (Some (agent_node (identity cfg))) →
  inbound_request cfg (collaboration_request s) = None →
  own_pending cfg (mjoin (pending_task s)) = Some pt →
  ∃ t rest,
    task_queue s = Some (t :: rest) ∧
    step O s (agent_node (identity cfg)) =
      Continue
        (mkState (messages s) (complexity_score s) (infos s)
           (original_user_input s)
           (Some rest)
           (key_modifiers s)
           (Some EmptyDict)
           (Some None)
           (Some (history s ++
              [mkEntry (history_name cfg) "task_completion" (pt_action pt)
                 (Text (ask_resume O (identity cfg) (pt_action pt) (history s)
                          (collaboration_request s) (pt_waiting_for pt)
                          (mjoin (responses s !! pt_waiting_for pt))))]))
           (<[pt_waiting_for pt := None]> (responses s))
           (<[identity cfg :=
                ask_resume O (identity cfg) (pt_action pt) (history s)
                  (collaboration_request s) (pt_waiting_for pt)
                  (mjoin (responses s !! pt_waiting_for pt))]> (results s)))
        "task_planner".
Proof.
  intros Hcfg Hinv Hin Hown.
  assert (mjoin (pending_task s) = Some pt) as Hpt.
  { unfold own_pending in Hown.
    destruct (mjoin (pending_task s)); [|done]. by case_decide; simplify_eq. }
  destruct (inv_own_pending cfg s pt Hinv Hin Hpt) as (_ & t & rest & Hq & _).
  exists t, rest. split; [done|].
  unfold step. rewrite (node_worker cfg Hcfg), worker_branch, Hin, Hown.
  unfold complete_pending, local_queue. rewrite Hq.
  destruct (queue_default cfg); simpl; unfold apply_update; simpl;
    by rewrite !insert_union_singleton_l.
Qed.

End Protocol.

(** An update carries a request only out of the delegation of branch 3. *)
Lemma worker_creates_request (O : Oracle) (cfg : WorkerConfig)
    (s : SmartHomeState) (cmd : Command) (r : CollaborationRequest) :
  result (worker O cfg s) = Return (Some cmd) →
  u_collaboration_request (update cmd) = Some (Request r) →
  inbound_request cfg (collaboration_request s) = None ∧
  own_pending cfg (mjoin (pending_task s)) = None ∧
  cr_requester r = identity cfg ∧
  ∃ head rest,
    own_head cfg (local_queue cfg s) = Some (head, rest) ∧
    u_pending_task (update cmd) =
      Some (Some (mkPending (identity cfg) (task_action head) (cr_target r))).
Proof.
  rewrite worker_branch.
  destruct (inbound_request _ _) as [cr|]; [by intros [= <-]|].
  destruct (own_pending _ _) as [pt|].
  { unfold complete_pending. destruct (local_queue cfg s); [|done].
    by intros [= <-]. }
  destruct (own_head _ _) as [[t rest]|]; [|done].
  unfold handle_new_task. simpl.
  destruct (reply_collaboration _) as [c|];
    [destruct (truthy _); [destruct (reply_request c); [|done]|]|];
    intros [= <-]; simpl; try done.
  intros [= <-]. simpl. by eauto 10.
Qed.

Lemma run_step (O : Oracle) (fuel : nat) (s s' : SmartHomeState)
    (n n' : string) :
  step O s n = Continue s' n' →
  run O (S fuel) s n = (n :: (run O fuel s' n').1, (run O fuel s' n').2).
Proof. simpl. intros ->. by destruct (run O fuel s' n'). Qed.

(** The seven workers other than [audio_system_agent] write their own name
    into the entries they append. *)
Lemma history_device_identity (O : Oracle) (cfg : WorkerConfig)
    (s : SmartHomeState) (cmd : Command) :
  cfg ∈ workers → cfg ≠ audio_system_cfg →
  result (worker O cfg s) = Return (Some cmd) →
  ∃ e, u_task_history (update cmd) = Some (history s ++ [e]) ∧
       he_device e = identity cfg.
Proof.
  intros Hcfg Hne Hres.
  destruct (worker_appends O cfg s cmd Hres) as (e & Hu & Hdev & _).
  exists e. split; [done|]. rewrite Hdev. revert Hcfg Hne.
  unfold workers. rewrite !elem_of_cons, elem_of_nil.
  intros H; decompose [or] H; subst; done.
Qed.

(* ------------------------------------------------------------------ *)
(** ** Concrete runs *)

Lemma entry_state_ok : turn_entry entry_state.
Proof. by repeat split. Qed.

Lemma recipe_reachable (k : nat) :
  match (run recipe_oracle k entry_state "task_planner").2 with
  | Continue s' n' => reachable recipe_oracle s' (Some n')
  | Finished s' => reachable recipe_oracle s' None
  | _ => True
  end.
Proof.
  apply run_reachable, reachable_entry, entry_state_ok.
Qed.

(* ------------------------------------------------------------------ *)
(** ** Properties of the orchestration *)

(** A turn never hands control to a worker none of whose guards holds. *)
Lemma no_branch_unreachable (O : Oracle) (cfg : WorkerConfig)
    (s : SmartHomeState) :
  reachable O s (Some (agent_node (identity cfg))) →
  ¬ (inbound_request cfg (collaboration_request s) = None ∧
     own_pending cfg (mjoin (pending_task s)) = None ∧
     own_head cfg (local_queue cfg s) = None).
Proof.
  intros Hreach (Hin & Hown & Hhead).
  apply (worker_always_matches O cfg s (reachable_inv O _ _ Hreach)).
  by rewrite worker_branch, Hin, Hown, Hhead.
Qed.

(** C1.  In every configuration a turn can reach, the history records as
    many requests as responses plus the outstanding ones, and the
    outstanding ones are as many as the state holds: none or one.  A node's
    update carries a (non-empty) request only if the node is a worker whose
    branch-1 and branch-2 guards fail and whose new-task guard holds, and
    then no request at all is held by the incoming state.  The worker a
    request targets writes [{}] over it in the very update that writes its
    response slot. *)
Theorem single_outstanding_request (O : Oracle) (s : SmartHomeState)
    (next : option string) :
  reachable O s next →
  count_type "collaboration_request" (history s) =
    count_type "collaboration_response" (history s) + outstanding (history s) ∧
  outstanding (history s) =
    match active s with Some _ => 1 | None => 0 end ∧
  (∀ n f cmd r,
     next = Some n →
     node O n = Some f →
     result (f s) = Return (Some cmd) →
     u_collaboration_request (update cmd) = Some (Request r) →
     active s = None ∧
     ∃ cfg head rest,
       cfg ∈ workers ∧ n = agent_node (identity cfg) ∧ f = worker O cfg ∧
       inbound_request cfg (collaboration_request s) = None ∧
       own_pending cfg (mjoin (pending_task s)) = None ∧
       own_head cfg (local_queue cfg s) = Some (head, rest) ∧
       cr_requester r = identity cfg) ∧
  (∀ cfg cr,
     inbound_request cfg (collaboration_request s) = Some cr →
     ∃ cmd,
       result (worker O cfg s) = Return (Some cmd) ∧
       u_collaboration_request (update cmd) = Some EmptyDict ∧
       u_responses (update cmd) =
         {[ identity cfg :=
              ask_answer O (identity cfg) (cr_requester cr) (cr_request cr) ]} ∧
       active (apply_update s (update cmd)) = None).
Proof.
  intros Hreach. pose proof (reachable_inv O s next Hreach) as Hinv.
  split; [|split; [|split]].
  - destruct Hinv as (_ & Hcount & _). unfold outstanding. rewrite Hcount.
    destruct (active s); lia.
  - destruct Hinv as (_ & Hcount & _). unfold outstanding. rewrite Hcount.
    destruct (active s); lia.
  - intros n f cmd r -> Hnode Hres Hreq.
    apply node_cases in Hnode as [[-> ->]|(cfg & Hcfg & -> & ->)].
    + exfalso. revert Hres Hreq. unfold task_planner.
      destruct (default [] (task_queue s)); simpl; [|by intros [= <-]].
      destruct (truthy _); simpl; [|by intros [= <-]].
      destruct (ask_plan O _ _ _) as [[|]|]; try done. by intros [= <-].
    + destruct (worker_creates_request O cfg s cmd r Hres Hreq)
        as (Hin & Hown & Hrq & head & rest & Hhead & _).
      split; [by eapply inv_not_inbound|]. by eauto 10.
  - intros cfg cr Hin. rewrite worker_branch, Hin. unfold respond.
    eexists. by repeat split.
Qed.

Lemma single_outstanding_request_witness :
  outstanding (history (recipe_state 2)) = 1 ∧
  outstanding (history (recipe_state 3)) = 0 ∧
  active (recipe_state 1) = None.
Proof.
  split; [|split].
  - exact (proj1 (proj2 (single_outstanding_request recipe_oracle
                           (recipe_state 2) (Some "fridge_agent")
                           (recipe_reachable 2)))).
  - exact (proj1 (proj2 (single_outstanding_request recipe_oracle
                           (recipe_state 3) (Some "search_engine_agent")
                           (recipe_reachable 3)))).
  - destruct (single_outstanding_request recipe_oracle (recipe_state 1)
                (Some "search_engine_agent") (recipe_reachable 1))
      as (_ & _ & Hnew & _).
    exact (proj1 (Hnew "search_engine_agent" _ _
                    (mkRequest "search_engine" "fridge"
                       "What ingredients are available?")
                    eq_refl eq_refl eq_refl eq_refl)).
Defined.

(** C2.  For every worker activation of a turn that returns, whether
    control is handed on or the run ends there: it appends one entry [e] to
    the history; if [e] is a [task_completion], the incoming queue is
    [t :: rest] and the outgoing queue is [rest] (one shorter); if [e] is a
    [collaboration_request] or a [collaboration_response], the queue is
    unchanged. *)
Theorem queue_monotonicity (O : Oracle) (s s' : SmartHomeState)
    (n : string) :
  reachable O s (Some n) →
  n ≠ "task_planner" →
  state_of (step O s n) = Some s' →
  ∃ e, history s' = history s ++ [e] ∧
    (he_type e = "task_completion" →
       ∃ t rest, task_queue s = Some (t :: rest) ∧
                 task_queue s' = Some rest ∧
                 length rest + 1 = length (t :: rest)) ∧
    (he_type e = "collaboration_request" ∨
     he_type e = "collaboration_response" →
       task_queue s' = task_queue s).
Proof.
  intros Hreach Hn Hstep. apply reachable_inv in Hreach. revert Hstep.
  unfold step, hand_over. destruct (node O n) as [f|] eqn:Hnode; [|done].
  apply node_cases in Hnode as [[-> ->]|(cfg & Hcfg & -> & ->)]; [done|].
  pose proof (worker_step_queue O cfg s) as Hq.
  pose proof (worker_always_matches O cfg s Hreach) as Hsome.
  destruct (result (worker O cfg s)) as [[cmd|]|]; try done.
  destruct (Hq cmd Hreach eq_refl) as (e & Hu & Hcase).
  intros Hs'.
  assert (s' = apply_update s (update cmd)) as ->.
  { destruct (successor O (goto cmd)); simpl in Hs'; congruence. }
  exists e. rewrite (history_apply _ _ _ Hu). split; [done|].
  destruct Hcase as [(Hty & t & rest & Hs & Hu')|[Hty Hu']]; simpl; rewrite Hu'.
  - split.
    + intros _. exists t, rest. simpl. repeat split; [done | lia].
    + rewrite Hty. by intros [?|?].
  - split; [|done]. intros Hty'. rewrite Hty' in Hty. by destruct Hty.
Qed.

Lemma queue_monotonicity_witness :
  (∃ e, history (recipe_state 3) = history (recipe_state 2) ++ [e] ∧
     (he_type e = "task_completion" →
        ∃ t rest, task_queue (recipe_state 2) = Some (t :: rest) ∧
                  task_queue (recipe_state 3) = Some rest ∧
                  length rest + 1 = length (t :: rest)) ∧
     (he_type e = "collaboration_request" ∨
      he_type e = "collaboration_response" →
        task_queue (recipe_state 3) = task_queue (recipe_state 2))) ∧
  (∃ e, history (recipe_state 4) = history (recipe_state 3) ++ [e] ∧
     (he_type e = "task_completion" →
        ∃ t rest, task_queue (recipe_state 3) = Some (t :: rest) ∧
                  task_queue (recipe_state 4) = Some rest ∧
                  length rest + 1 = length (t :: rest)) ∧
     (he_type e = "collaboration_request" ∨
      he_type e = "collaboration_response" →
        task_queue (recipe_state 4) = task_queue (recipe_state 3))).
Proof.
  split.
  - apply (queue_monotonicity recipe_oracle (recipe_state 2) (recipe_state 3)
             "fridge_agent").
    + exact (recipe_reachable 2).
    + discriminate.
    + vm_compute. reflexivity.
  - apply (queue_monotonicity recipe_oracle (recipe_state 3) (recipe_state 4)
             "search_engine_agent").
    + exact (recipe_reachable 3).
    + discriminate.
    + vm_compute. reflexivity.
Defined.

(** C3.  Branch 1 makes one answer call, writes [{}] over the request,
    does not write [pending_task], records a [collaboration_response] and
    hands control to the requester.  Branch 2 returns a finalized result,
    writes [{}] over the request and [None] over the pending task, records a
    [task_completion] and hands control to the planner.  Consequently, in a
    turn, whenever a request is held and its target is a node of the graph,
    the next two activations are the target (which answers without touching
    the queue) and then the requester (which completes), after which the
    planner runs with no request and no pending task left. *)
Theorem one_hop_collaboration (O : Oracle) :
  (∀ cfg s cr,
     inbound_request cfg (collaboration_request s) = Some cr →
     ∃ cmd e,
       worker O cfg s =
         mkActivation
           [AnswerCall (identity cfg) (cr_requester cr) (cr_request cr)]
           (Return (Some cmd)) ∧
       u_collaboration_request (update cmd) = Some EmptyDict ∧
       u_pending_task (update cmd) = None ∧
       u_task_history (update cmd) = Some (history s ++ [e]) ∧
       he_type e = "collaboration_response" ∧
       goto cmd = Some (agent_node (cr_requester cr))) ∧
  (∀ cfg s pt,
     inbound_request cfg (collaboration_request s) = None →
     own_pending cfg (mjoin (pending_task s)) = Some pt →
     is_Some (local_queue cfg s) →
     ∃ cmd e res,
       result (worker O cfg s) = Return (Some cmd) ∧
       u_results (update cmd) = {[ identity cfg := res ]} ∧
       u_collaboration_request (update cmd) = Some EmptyDict ∧
       u_pending_task (update cmd) = Some None ∧
       u_task_history (update cmd) = Some (history s ++ [e]) ∧
       he_type e = "task_completion" ∧ he_result e = Text res ∧
       goto cmd = Some "task_planner") ∧
  (∀ s n r,
     reachable O s (Some n) →
     active s = Some r →
     is_Some (node O n) →
     n = agent_node (cr_target r) ∧
     ∃ s1 s2 e1 e2,
       step O s n = Continue s1 (agent_node (cr_requester r)) ∧
       active s1 = None ∧
       task_queue s1 = task_queue s ∧
       step O s1 (agent_node (cr_requester r)) = Continue s2 "task_planner" ∧
       active s2 = None ∧
       mjoin (pending_task s2) = None ∧
       history s2 = history s ++ [e1; e2] ∧
       he_type e1 = "collaboration_response" ∧
       he_type e2 = "task_completion").
Proof.
  split; [|split].
  - intros cfg s cr Hin. rewrite worker_branch, Hin. unfold respond.
    eexists _, _. by repeat split.
  - intros cfg s pt Hin Hown [q Hq]. rewrite worker_branch, Hin, Hown.
    unfold complete_pending. rewrite Hq. eexists _, _, _. by repeat split.
  - intros s n r Hreach Hact [f Hnode].
    pose proof (reachable_inv O s _ Hreach) as Hinv.
    pose proof Hinv as (Hq & _ & Hpend).
    destruct (mjoin (pending_task s)) as [pt|] eqn:Hpt;
      [|destruct Hpend; congruence].
    destruct Hpend as ((cfg2 & Hcfg2 & Hid2) & _ &
                       [(r' & Hr' & Hreq & Htg & Hn)|[? _]]); [|congruence].
    assert (r' = r) as -> by congruence.
    symmetry in Hn. apply successor_Some in Hn as [Hn _]. injection Hn as <-.
    split; [done|].
    apply node_cases in Hnode
      as [[Hn _]|(cfg1 & Hcfg1 & Hn & ->)];
      [by apply agent_node_not_planner in Hn|].
    apply agent_node_inj in Hn.
    assert (inbound_request cfg1 (collaboration_request s) = Some r) as Hin.
    { unfold active in Hact. unfold inbound_request.
      destruct (collaboration_request s) as [[|r0]|]; try done.
      simplify_eq. by rewrite decide_True. }
    assert (step O s (agent_node (cr_target r)) =
              Continue (apply_update s
                (mkUpdate None None (Some EmptyDict) None
                   (Some (history s ++
                      [mkEntry (history_name cfg1) "collaboration_response"
                         (cr_request r)
                         (Text (ask_answer O (identity cfg1) (cr_requester r)
                                  (cr_request r)))]))
                   {[ identity cfg1 :=
                        ask_answer O (identity cfg1) (cr_requester r)
                          (cr_request r) ]} ∅))
                (agent_node (cr_requester r))) as Hstep1.
    { unfold step. rewrite Hn, (node_worker O cfg1 Hcfg1).
      rewrite worker_branch, Hin. unfold respond, hand_over. simpl.
      by rewrite Hreq, <-Hid2, (successor_worker O cfg2 Hcfg2). }
    set (s1 := apply_update s _) in Hstep1.
    pose proof (reachable_continue O _ _ _ _ Hreach Hstep1) as Hreach1.
    assert (inbound_request cfg2 (collaboration_request s1) = None) as Hin1
      by done.
    assert (own_pending cfg2 (mjoin (pending_task s1)) = Some pt) as Hown1.
    { unfold s1. simpl. rewrite Hpt. simpl. by rewrite decide_True. }
    rewrite Hreq, <-Hid2 in Hreach1, Hstep1 |- *.
    destruct (resume_step O cfg2 s1 pt Hcfg2 (reachable_inv O _ _ Hreach1)
                Hin1 Hown1) as (t & rest & Hq1 & Hstep2).
    eexists s1, _, _, _. split; [exact Hstep1|].
    split; [done|]. split; [done|]. split; [exact Hstep2|].
    split; [done|]. split; [done|].
    assert (∀ (h : list HistoryEntry) a b, (h ++ [a]) ++ [b] = h ++ [a; b])
      as Happ by (intros; by rewrite <-app_assoc).
    split; [apply Happ | split; reflexivity].
Qed.

Lemma one_hop_collaboration_witness :
  ∃ s1 s2 e1 e2,
    step recipe_oracle (recipe_state 2) "fridge_agent" =
      Continue s1 "search_engine_agent" ∧
    active s1 = None ∧
    task_queue s1 = task_queue (recipe_state 2) ∧
    step recipe_oracle s1 "search_engine_agent" = Continue s2 "task_planner" ∧
    active s2 = None ∧
    mjoin (pending_task s2) = None ∧
    history s2 = history (recipe_state 2) ++ [e1; e2] ∧
    he_type e1 = "collaboration_response" ∧
    he_type e2 = "task_completion".
Proof.
  destruct (one_hop_collaboration recipe_oracle) as (_ & _ & Hhop).
  destruct (Hhop (recipe_state 2) "fridge_agent"
              (mkRequest "search_engine" "fridge"
                 "What ingredients are available?"))
    as (_ & H).
  - exact (recipe_reachable 2).
  - reflexivity.
  - eexists. reflexivity.
  - exact H.
Defined.

(** C4.  Whatever the state, a worker does one of four things.  It returns
    a [Command] that writes the incoming history followed by exactly one
    new entry, so the incoming history is a prefix of the outgoing one.  Or
    it returns [None], which happens only when none of its three guards
    holds.  Or it raises: [TypeError] in branch 2 when the queue it slices
    is [None], [KeyError] in branch 3 when the reply names a target and no
    request.  So every branch that returns appends one entry.  In a turn, a
    worker step fails with [KeyError] or leaves the history one entry
    longer, the entry carrying the label of the node; this includes the
    step after which the run ends.  Along a run the history grows by the
    entries of the workers that ran, in the order they ran (the planner adds
    none): for a run that is paused, and, in a turn, for a run that is
    over. *)
Theorem task_history_append_only (O : Oracle) :
  (∀ cfg s,
     (∃ cmd e,
        result (worker O cfg s) = Return (Some cmd) ∧
        u_task_history (update cmd) = Some (history s ++ [e]) ∧
        history (apply_update s (update cmd)) = history s ++ [e] ∧
        history s `prefix_of` history (apply_update s (update cmd))) ∨
     (result (worker O cfg s) = Return None ∧
      inbound_request cfg (collaboration_request s) = None ∧
      own_pending cfg (mjoin (pending_task s)) = None ∧
      own_head cfg (local_queue cfg s) = None) ∨
     (result (worker O cfg s) = Raise TypeError ∧
      inbound_request cfg (collaboration_request s) = None ∧
      is_Some (own_pending cfg (mjoin (pending_task s))) ∧
      local_queue cfg s = None) ∨
     (result (worker O cfg s) = Raise KeyError ∧
      inbound_request cfg (collaboration_request s) = None ∧
      own_pending cfg (mjoin (pending_task s)) = None ∧
      ∃ t rest c,
        own_head cfg (local_queue cfg s) = Some (t, rest) ∧
        reply_collaboration
          (ask_decide O (identity cfg) (task_action t) (history s)) = Some c ∧
        truthy (reply_target c) = true ∧
        reply_request c = None)) ∧
  (∀ s n,
     reachable O s (Some n) →
     n ≠ "task_planner" →
     step O s n = Failed KeyError ∨
     ∃ s' e,
       state_of (step O s n) = Some s' ∧
       history s' = history s ++ [e] ∧
       history s `prefix_of` history s' ∧
       history_label n = Some (he_device e)) ∧
  (∀ fuel s n trace s' n',
     run O fuel s n = (trace, Continue s' n') →
     ∃ es, history s' = history s ++ es ∧
           history s `prefix_of` history s' ∧
           he_device <$> es = omap history_label trace) ∧
  (∀ fuel s n trace s',
     reachable O s (Some n) →
     run O fuel s n = (trace, Finished s') →
     ∃ es, history s' = history s ++ es ∧
           history s `prefix_of` history s' ∧
           he_device <$> es = omap history_label trace).
Proof.
  split; [|split; [|split]].
  - intros cfg s. rewrite worker_branch.
    destruct (inbound_request _ _) as [cr|] eqn:Hin.
    { left. eexists _, _. split; [reflexivity|]. split; [reflexivity|].
      split; [reflexivity|]. by apply prefix_app_r. }
    destruct (own_pending _ _) as [pt|] eqn:Hown.
    { unfold complete_pending. destruct (local_queue cfg s) as [q|] eqn:Hq.
      - left. eexists _, _. split; [reflexivity|]. split; [reflexivity|].
        split; [reflexivity|]. by apply prefix_app_r.
      - right. right. left. by repeat split. }
    destruct (own_head _ _) as [[t rest]|] eqn:Hhead;
      [|right; left; by repeat split].
    unfold handle_new_task. simpl.
    destruct (reply_collaboration _) as [c|] eqn:Hc;
      [destruct (truthy (reply_target c)) eqn:Htarget;
       [destruct (reply_request c) as [request|] eqn:Hrequest|]|].
    + left. eexists _, _. split; [reflexivity|]. split; [reflexivity|].
      split; [reflexivity|]. by apply prefix_app_r.
    + do 3 right. repeat split; try done. by exists t, rest, c.
    + left. eexists _, _. split; [reflexivity|]. split; [reflexivity|].
      split; [reflexivity|]. by apply prefix_app_r.
    + left. eexists _, _. split; [reflexivity|]. split; [reflexivity|].
      split; [reflexivity|]. by apply prefix_app_r.
  - intros s n Hreach Hn.
    destruct (reachable_registered O s n Hreach) as [f Hnode].
    apply reachable_inv in Hreach. unfold step. rewrite Hnode.
    apply node_cases in Hnode as [[-> ->]|(cfg & Hcfg & -> & ->)]; [done|].
    pose proof (worker_always_matches O cfg s Hreach) as Hsome.
    pose proof (worker_appends O cfg s) as Happ.
    destruct (result (worker O cfg s)) as [[cmd|]|e] eqn:Hres; [|done|].
    + right. destruct (Happ cmd eq_refl) as (e & Hu & Hdev & _).
      exists (apply_update s (update cmd)), e. split.
      { unfold hand_over. by destruct (successor O (goto cmd)). }
      rewrite (history_apply _ _ _ Hu). split; [done|].
      split; [by apply prefix_app_r|].
      rewrite history_label_worker by done. by rewrite Hdev.
    + left. f_equal. revert Hres. rewrite worker_branch.
      destruct (inbound_request _ _) as [cr|]; [done|].
      destruct (own_pending _ _) as [pt|].
      { unfold complete_pending, local_queue.
        destruct Hreach as ([q Hq] & _). rewrite Hq.
        by destruct (queue_default cfg). }
      destruct (own_head _ _) as [[t rest]|]; [|done].
      unfold handle_new_task. simpl.
      destruct (reply_collaboration _) as [c|]; [|done].
      destruct (truthy _); [|done].
      destruct (reply_request c); [done|]. by intros [= <-].
  - intros fuel s n trace s' n' Hrun.
    pose proof (run_history O fuel s n) as H. rewrite Hrun in H.
    destruct H as (es & Hh & Hl). exists es. rewrite Hh.
    split; [done|]. split; [|done]. by apply prefix_app_r.
  - intros fuel s n trace s' Hreach Hrun.
    pose proof (run_history_turn O fuel s n (reachable_inv O _ _ Hreach)) as H.
    rewrite Hrun in H.
    destruct H as (es & Hh & Hl). exists es. rewrite Hh.
    split; [done|]. split; [|done]. by apply prefix_app_r.
Qed.

Lemma task_history_append_only_witness :
  (∃ e, history (recipe_state 2) = history (recipe_state 1) ++ [e] ∧
        history_label "search_engine_agent" = Some (he_device e)) ∧
  (∃ es, history (recipe_state 3) = history (recipe_state 1) ++ es ∧
         he_device <$> es = ["search_engine"; "fridge"]) ∧
  (∃ es, history (recipe_state 5) = history entry_state ++ es ∧
         he_device <$> es = ["search_engine"; "fridge"; "search_engine"]).
Proof.
  destruct (task_history_append_only recipe_oracle)
    as (_ & Hstep & Hrun & Hend).
  split; [|split].
  - destruct (Hstep (recipe_state 1) "search_engine_agent"
                (recipe_reachable 1) ltac:(discriminate))
      as [Hfail|(s' & e & Hs' & He & _ & Hlabel)].
    + discriminate Hfail.
    + injection Hs' as <-. exists e. split; [exact He | exact Hlabel].
  - destruct (Hrun 2 (recipe_state 1) "search_engine_agent" _ _ _ eq_refl)
      as (es & Hes & _ & Hdev).
    exists es. split; [exact Hes | exact Hdev].
  - destruct (Hend 5 entry_state "task_planner" _ _
                (reachable_entry _ _ entry_state_ok) eq_refl)
      as (es & Hes & _ & Hdev).
    exists es. split; [exact Hes | exact Hdev].
Defined.

(** C5 as stated fails: at the start of a turn none of the three guards of
    [clock_agent] holds, yet the function raises nothing and the run ends
    with the state as it was. *)
Lemma no_branch_raises_counterexample :
  inbound_request clock_cfg (collaboration_request entry_state) = None ∧
  own_pending clock_cfg (mjoin (pending_task entry_state)) = None ∧
  own_head clock_cfg (local_queue clock_cfg entry_state) = None ∧
  (∀ e, result (clock_agent recipe_oracle entry_state) ≠ Raise e) ∧
  step recipe_oracle entry_state "clock_agent" = Finished entry_state.
Proof. by repeat split. Qed.

(** C5, amended.  A worker none of whose three guards holds makes no
    Oracle call, raises nothing and returns [None]: no update, no successor.
    For a registered worker the run ends there, with the state unchanged. *)
Theorem no_branch_returns_none (O : Oracle) (cfg : WorkerConfig)
    (s : SmartHomeState) :
  inbound_request cfg (collaboration_request s) = None →
  own_pending cfg (mjoin (pending_task s)) = None →
  own_head cfg (local_queue cfg s) = None →
  worker O cfg s = mkActivation [] (Return None) ∧
  (cfg ∈ workers → step O s (agent_node (identity cfg)) = Finished s).
Proof.
  intros Hin Hown Hhead.
  assert (worker O cfg s = mkActivation [] (Return None)) as Hw.
  { by rewrite worker_branch, Hin, Hown, Hhead. }
  split; [done|]. intros Hcfg. unfold step.
  by rewrite (node_worker O cfg Hcfg), Hw.
Qed.

Lemma no_branch_returns_none_witness :
  worker recipe_oracle clock_cfg entry_state = mkActivation [] (Return None) ∧
  (clock_cfg ∈ workers →
   step recipe_oracle entry_state (agent_node (identity clock_cfg))
     = Finished entry_state).
Proof.
  apply (no_branch_returns_none recipe_oracle clock_cfg entry_state);
    reflexivity.
Defined.

(** C6.  In a turn, when worker [cfg] runs with its branch-1 guard false
    and its own pending task [pt], the queue is [t :: rest] and the step
    leads to the planner with: the queue [rest], [pending_task] [None],
    [collaboration_request] [{}], the response slot of [pt]'s collaborator
    [None], the worker's result slot the Oracle's answer, the history
    extended by one [task_completion] entry, and every other field and slot
    as before. *)
Theorem resume_frame (O : Oracle) (s : SmartHomeState) (cfg : WorkerConfig)
    (pt : PendingTask) :
  cfg ∈ workers →
  reachable O s (Some (agent_node (identity cfg))) →
  inbound_request cfg (collaboration_request s) = None →
  own_pending cfg (mjoin (pending_task s)) = Some pt →
  ∃ t rest,
    task_queue s = Some (t :: rest) ∧
    let collaborator := pt_waiting_for pt in
    let res :=
      ask_resume O (identity cfg) (pt_action pt) (history s)
        (collaboration_request s) collaborator
        (mjoin (responses s !! collaborator)) in
    let e :=
      mkEntry (history_name cfg) "task_completion" (pt_action pt) (Text res) in
    step O s (agent_node (identity cfg)) =
      Continue
        (mkState (messages s) (complexity_score s) (infos s)
           (original_user_input s)
           (Some rest)
           (key_modifiers s)
           (Some EmptyDict)
           (Some None)
           (Some (history s ++ [e]))
           (<[collaborator := None]> (responses s))
           (<[identity cfg := res]> (results s)))
        "task_planner".
Proof.
  intros Hcfg Hreach Hin Hown. simpl.
  apply (resume_step O); [done | by apply (reachable_inv O) | done..].
Qed.

Lemma resume_frame_witness :
  ∃ t rest, task_queue (recipe_state 3) = Some (t :: rest) ∧
    step recipe_oracle (recipe_state 3) "search_engine_agent" =
      Continue
        (mkState ["What should I cook tonight?"] (Some 1)
           (Some ["What should I cook tonight?"]) (Some "")
           (Some rest) (Some []) (Some EmptyDict) (Some None)
           (Some (history (recipe_state 3) ++
                  [mkEntry "search_engine" "task_completion"
                     "suggest recipes using available ingredients"
                     (Text (Some "tomato egg fried rice"))]))
           (<["fridge" := None]> (responses (recipe_state 3)))
           (<["search_engine" := Some "tomato egg fried rice"]>
              (results (recipe_state 3))))
        "task_planner".
Proof.
  destruct (resume_frame recipe_oracle (recipe_state 3) search_engine_cfg
              (mkPending "search_engine"
                 "suggest recipes using available ingredients" "fridge"))
    as (t & rest & Hq & Hstep).
  - unfold workers. set_solver.
  - exact (recipe_reachable 3).
  - reflexivity.
  - reflexivity.
  - exists t, rest. split; [exact Hq | exact Hstep].
Defined.



(** C8.  With the recipe task for [search_engine] at the head of the queue,
    an empty history, nothing pending, and an Oracle that answers the
    new-task prompt with a request to [fridge]: four steps run the planner,
    [search_engine], [fridge], [search_engine] and return to the planner;
    the queue has lost exactly its head, [search_engine]'s result slot holds
    the resumed answer, the history is the three entries
    [collaboration_request], [collaboration_response], [task_completion] by
    [search_engine], [fridge], [search_engine], and no request, pending task
    or unread response is left. *)
Theorem recipe_round_trip (O : Oracle) (s : SmartHomeState)
    (rest : list Task) (response : option string) (question : string) :
  let action := "suggest recipes using available ingredients" in
  let e1 :=
    mkEntry "search_engine" "collaboration_request" action
      (Delegation "fridge" question) in
  let ingredients := ask_answer O "fridge" "search_engine" question in
  let e2 :=
    mkEntry "fridge" "collaboration_response" question (Text ingredients) in
  let recipes :=
    ask_resume O "search_engine" action [e1; e2] (Some EmptyDict) "fridge"
      ingredients in
  let e3 :=
    mkEntry "search_engine" "task_completion" action (Text recipes) in
  task_queue s = Some (mkTask "search_engine" action :: rest) →
  history s = [] →
  active s = None →
  mjoin (pending_task s) = None →
  ask_decide O "search_engine" action [] =
    mkDecide response
      (Some (mkCollabReply (Some "fridge") (Some question))) →
  ∃ s',
    run O 4 s "task_planner" =
      (["task_planner"; "search_engine_agent"; "fridge_agent";
        "search_engine_agent"],
       Continue s' "task_planner") ∧
    task_queue s' = Some rest ∧
    results s' !! "search_engine" = Some recipes ∧
    history s' = [e1; e2; e3] ∧
    active s' = None ∧
    mjoin (pending_task s') = None ∧
    responses s' !! "fridge" = Some None.
Proof.
  intros action e1 ingredients e2 recipes e3 Hq Hh Hact Hpend Hdecide.
  destruct s as [msgs score inf input queue mods collab pending hist resp res].
  unfold history, active in Hh, Hact. simpl in Hq, Hh, Hact, Hpend.
  subst queue.
  assert (inbound_request search_engine_cfg collab = None) as Hin.
  { by destruct collab as [[|r]|]. }
  erewrite run_step; last first.
  { unfold step. simpl. reflexivity. }
  erewrite run_step; last first.
  { unfold step. simpl. unfold search_engine_agent.
    rewrite worker_branch. simpl. rewrite Hin, Hpend. simpl.
    unfold handle_new_task, history. simpl. rewrite Hh, Hdecide. simpl.
    reflexivity. }
  erewrite run_step; last first.
  { unfold step. simpl. reflexivity. }
  erewrite run_step; last first.
  { unfold step. simpl. reflexivity. }
  assert (∀ v : option string,
            ({[ "fridge" := v ]} ∪ resp) !! "fridge" = Some v) as Hslot.
  { intros v. apply lookup_union_Some_l, lookup_singleton_eq. }
  simpl. eexists. split; [reflexivity|]. simpl.
  rewrite !(left_id_L ∅ (∪)), !Hslot. simpl.
  split; [done|]. split; [apply lookup_union_Some_l, lookup_singleton_eq|].
  split; [done|]. split; [done|]. split; [done|].
  apply lookup_union_Some_l, lookup_singleton_eq.
Qed.

Lemma recipe_round_trip_witness :
  ∃ s',
    run recipe_oracle 4 (recipe_state 1) "task_planner" =
      (["task_planner"; "search_engine_agent"; "fridge_agent";
        "search_engine_agent"],
       Continue s' "task_planner") ∧
    task_queue s' = Some [] ∧
    results s' !! "search_engine" = Some (Some "tomato egg fried rice") ∧
    history s' =
      [mkEntry "search_engine" "collaboration_request"
         "suggest recipes using available ingredients"
         (Delegation "fridge" "What ingredients are available?");
       mkEntry "fridge" "collaboration_response"
         "What ingredients are available?"
         (Text (Some "eggs, tomatoes, rice"));
       mkEntry "search_engine" "task_completion"
         "suggest recipes using available ingredients"
         (Text (Some "tomato egg fried rice"))] ∧
    active s' = None ∧
    mjoin (pending_task s') = None ∧
    responses s' !! "fridge" = Some None.
Proof.
  exact (recipe_round_trip recipe_oracle (recipe_state 1) [] (Some "")
           "What ingredients are available?"
           eq_refl eq_refl eq_refl eq_refl eq_refl).
Defined.

(** C9 does not hold for [audio_system_agent]: in each of its branches the
    entry it appends carries the device ["audio system"], which is not the
    name ["audio_system"] it uses everywhere else. *)
Theorem audio_system_history_device (O : Oracle) (s : SmartHomeState)
    (cmd : Command) :
  result (audio_system_agent O s) = Return (Some cmd) →
  ∃ e, u_task_history (update cmd) = Some (history s ++ [e]) ∧
       he_device e = "audio system" ∧
       he_device e ≠ identity audio_system_cfg.
Proof.
  intros Hres.
  destruct (worker_appends O audio_system_cfg s cmd Hres)
    as (e & Hu & Hdev & _).
  exists e. split; [done|]. by rewrite Hdev.
Qed.

Lemma audio_system_history_device_witness :
  ∃ e, u_task_history
         (mkUpdate None
            (Some [mkTask "lighting" "dim the lighting to help users relax"])
            None None
            (Some [mkEntry "audio system" "task_completion"
                     "play relaxing music" (Text (Some "done"))])
            ∅ {[ "audio_system" := Some "done" ]})
       = Some (history relax_state ++ [e]) ∧
       he_device e = "audio system" ∧
       he_device e ≠ identity audio_system_cfg.
Proof.
  exact (audio_system_history_device recipe_oracle relax_state
           (mkCommand _ (Some "task_planner")) eq_refl).
Defined.

(** C10 does not hold: when the planning call returns an empty list,
    [new_task_queue[0]] raises [IndexError] and the step fails. *)
Theorem plan_head_unguarded (O : Oracle) (s : SmartHomeState)
    (input : string) :
  default [] (task_queue s) = [] →
  original_user_input s = Some input →
  input ≠ "" →
  ask_plan O input (default [] (infos s)) (default [] (key_modifiers s))
    = Some [] →
  task_planner O s =
    mkActivation
      [PlanCall input (default [] (infos s)) (default [] (key_modifiers s))]
      (Raise IndexError) ∧
  step O s "task_planner" = Failed IndexError.
Proof.
  intros Hq Hin Hne Hplan. unfold step. simpl. unfold task_planner.
  rewrite Hq, Hin. simpl. rewrite bool_decide_eq_false_2 by done. simpl.
  by rewrite Hplan.
Qed.

Lemma plan_head_unguarded_witness :
  task_planner empty_plan_oracle entry_state =
    mkActivation
      [PlanCall "What should I cook tonight?"
         ["What should I cook tonight?"] []]
      (Raise IndexError) ∧
  step empty_plan_oracle entry_state "task_planner" = Failed IndexError.
Proof.
  apply (plan_head_unguarded empty_plan_oracle entry_state
           "What should I cook tonight?"); [reflexivity.. | | reflexivity].
  discriminate.
Defined.

(* ------------------------------------------------------------------ *)
(** ** A worker step, case by case *)

Section Turn.

Variable O : Oracle.

(** In a turn, what a worker returns is one of four commands. *)
Lemma worker_step_cases (cfg : WorkerConfig) (s : SmartHomeState) :
  protocol_inv O s (Some (agent_node (identity cfg))) →
  match result (worker O cfg s) with
  | Return (Some cmd) =>
      (∃ r pt t rest,
         active s = Some r ∧ mjoin (pending_task s) = Some pt ∧
         cr_target r = identity cfg ∧
         cr_requester r = pt_device pt ∧ cr_target r = pt_waiting_for pt ∧
         task_queue s = Some (t :: rest) ∧
         cmd = mkCommand
           (mkUpdate None None (Some EmptyDict) None
              (Some (history s ++
                 [mkEntry (history_name cfg) "collaboration_response"
                    (cr_request r)
                    (Text (ask_answer O (identity cfg) (cr_requester r)
                             (cr_request r)))]))
              {[ identity cfg :=
                   ask_answer O (identity cfg) (cr_requester r)
                     (cr_request r) ]} ∅)
           (Some (agent_node (cr_requester r)))) ∨
      (∃ pt t rest res,
         active s = None ∧ mjoin (pending_task s) = Some pt ∧
         pt_device pt = identity cfg ∧
         task_queue s = Some (t :: rest) ∧ task_device t = identity cfg ∧
         cmd = mkCommand
           (mkUpdate None (Some rest) (Some EmptyDict) (Some None)
              (Some (history s ++
                 [mkEntry (history_name cfg) "task_completion" (pt_action pt)
                    (Text res)]))
              {[ pt_waiting_for pt := None ]} {[ identity cfg := res ]})
           (Some "task_planner")) ∨
      (∃ t rest res,
         active s = None ∧ mjoin (pending_task s) = None ∧
         task_queue s = Some (t :: rest) ∧ task_device t = identity cfg ∧
         cmd = mkCommand
           (mkUpdate None (Some rest) None None
              (Some (history s ++
                 [mkEntry (history_name cfg) "task_completion" (task_action t)
                    (Text res)]))
              ∅ {[ identity cfg := res ]})
           (Some "task_planner")) ∨
      (∃ t rest target request,
         active s = None ∧ mjoin (pending_task s) = None ∧
         task_queue s = Some (t :: rest) ∧ task_device t = identity cfg ∧
         cmd = mkCommand
           (mkUpdate None None
              (Some (Request (mkRequest (identity cfg) target request)))
              (Some (Some (mkPending (identity cfg) (task_action t) target)))
              (Some (history s ++
                 [mkEntry (history_name cfg) "collaboration_request"
                    (task_action t) (Delegation target request)]))
              ∅ ∅)
           (Some (agent_node target)))
  | Return None => False
  | Raise _ => True
  end.
Proof.
  intros Hinv.
  pose proof (worker_always_matches O cfg s Hinv) as Hmatch.
  pose proof (inv_not_inbound O cfg s Hinv) as Hidle.
  pose proof (inv_own_pending O cfg s) as Hown.
  specialize (λ pt, Hown pt Hinv).
  revert Hmatch. rewrite worker_branch.
  destruct (inbound_request cfg _) as [cr|] eqn:Hin.
  { intros _. simpl. left.
    assert (active s = Some cr ∧ cr_target cr = identity cfg) as [Hact Htg].
    { unfold inbound_request in Hin. unfold active.
      destruct (collaboration_request s) as [[|r]|]; try done.
      case_decide; by simplify_eq. }
    destruct Hinv as (_ & _ & Hpend).
    destruct (mjoin (pending_task s)) as [pt|];
      [|destruct Hpend; congruence].
    destruct Hpend as (_ & (t & rest & Hq & _) &
                       [(r & Hr & Hreq & Htg' & _)|[? _]]); [|congruence].
    assert (r = cr) as -> by congruence.
    by exists cr, pt, t, rest. }
  specialize (Hidle eq_refl).
  destruct (own_pending cfg _) as [pt|] eqn:Hpt.
  { intros _. unfold own_pending in Hpt.
    destruct (mjoin (pending_task s)) as [pt'|] eqn:Hpend; [|done].
    case_decide; simplify_eq.
    destruct (Hown pt eq_refl eq_refl) as (Hdev & t & rest & Hq & Hhead).
    unfold complete_pending, local_queue. rewrite Hq.
    assert (∀ b : bool, (if b then Some (default [] (Some (t :: rest)))
                         else Some (t :: rest)) = Some (t :: rest)) as ->
      by (by intros []).
    simpl. right. left. eexists pt, t, rest, _.
    repeat split; try done. congruence. }
  assert (mjoin (pending_task s) = None) as Hnone.
  { destruct (mjoin (pending_task s)) as [pt|] eqn:Hpend; [|done].
    destruct (Hown pt eq_refl eq_refl) as (Hdev & _).
    unfold own_pending in Hpt. by case_decide. }
  destruct (own_head cfg _) as [[t rest]|] eqn:Hhead; [|done].
  intros _.
  assert (task_queue s = Some (t :: rest) ∧ task_device t = identity cfg)
    as [Hq Hdev].
  { unfold own_head, local_queue in Hhead.
    destruct (queue_default cfg), (task_queue s) as [[|t' rest']|];
      simpl in Hhead; try done; case_decide; by simplify_eq. }
  unfold handle_new_task. simpl.
  destruct (reply_collaboration _) as [c|];
    [destruct (truthy _); [destruct (reply_request c); [|done]|]|]; simpl.
  - do 3 right. by eexists t, rest, _, _.
  - right. right. left. by eexists t, rest, _.
  - right. right. left. by eexists t, rest, _.
Qed.


(** The planner once the utterance is consumed: dispatch or end. *)
Lemma planner_step_cases (s : SmartHomeState) :
  truthy (original_user_input s) = false →
  (∃ t rest,
     default [] (task_queue s) = t :: rest ∧
     step O s "task_planner" =
       hand_over O
         (apply_update s (mkUpdate None (Some (t :: rest)) None None None ∅ ∅))
         (Some (agent_node (task_device t)))) ∨
  (default [] (task_queue s) = [] ∧
   step O s "task_planner" =
     Finished (apply_update s (mkUpdate None (Some []) None None None ∅ ∅))).
Proof.
  intros Hin. unfold step. simpl. unfold task_planner. rewrite Hin.
  destruct (default [] (task_queue s)) as [|t rest]; simpl.
  - by right.
  - left. by exists t, rest.
Qed.

Lemma completed_snoc (h : list HistoryEntry) (e : HistoryEntry) :
  completed (h ++ [e]) =
  completed h ++
    (if decide (he_type e = "task_completion") then [he_action_taken e]
     else []).
Proof.
  unfold completed. rewrite filter_app, fmap_app. f_equal.
  rewrite filter_cons, filter_nil. by case_decide.
Qed.

(** What is shown of the state a [Command] leaves holds wherever control
    goes next, and what is shown of the successor holds when there is
    one. *)
Lemma hand_over_cases (P : SmartHomeState → Prop)
    (Q : SmartHomeState → string → Prop) (s' : SmartHomeState)
    (goto : option string) :
  P s' →
  (∀ n', goto = Some n' → Q s' n') →
  match hand_over O s' goto with
  | Continue s'' n' => P s'' ∧ Q s'' n'
  | Finished s'' => P s''
  | _ => True
  end.
Proof.
  intros HP HQ. unfold hand_over.
  destruct (successor O goto) as [n'|] eqn:Hsucc; [|done].
  apply successor_Some in Hsucc as [-> _]. split; [done | by apply HQ].
Qed.

(** One step of a turn keeps [plan_inv] and uses up [steps_left]. *)
Lemma turn_step (plan : list Task) (s : SmartHomeState) (n : string) :
  protocol_inv O s (Some n) →
  plan_inv plan s →
  match step O s n with
  | Continue s' n' => plan_inv plan s' ∧ steps_left s' n' < steps_left s n
  | Finished s' => plan_inv plan s'
  | _ => True
  end.
Proof.
  intros Hinv (Hin & (fin & Hplan & Hdone & Hres) & Hhead & Hslots).
  destruct (node O n) as [f|] eqn:Hnode; [|by unfold step; rewrite Hnode].
  apply node_cases in Hnode as [[-> ->]|(cfg & Hcfg & -> & ->)].
  - destruct (inv_planner_idle O s Hinv) as [Hnone Hidle].
    assert (∀ q, default [] (task_queue s) = q →
              plan_inv plan
                (apply_update s (mkUpdate None (Some q) None None None ∅ ∅)))
      as Hkeep.
    { intros q Hq. split; [done|]. split; [|split].
      - exists fin. simpl. rewrite <-Hq. split; [done|]. split; [done|].
        intros t0 Ht0. rewrite (left_id_L ∅ (∪)). by apply Hres.
      - simpl. intros pt. by rewrite Hnone.
      - simpl. intros w v. rewrite (left_id_L ∅ (∪)). apply Hslots. }
    destruct (planner_step_cases s Hin) as [(t & rest & Hq & ->)|[Hq ->]];
      [|by apply Hkeep].
    apply (hand_over_cases (plan_inv plan)
             (λ s' n', steps_left s' n' < steps_left s "task_planner"));
      [by apply Hkeep|].
    intros n' [= <-]. unfold steps_left. simpl. rewrite Hnone, Hq.
    repeat case_decide; simpl in *;
      try lia; try done; by (exfalso; eapply agent_node_not_planner).
  - pose proof (worker_step_cases cfg s Hinv) as Hcases.
    unfold step. rewrite (node_worker O cfg Hcfg).
    destruct (result (worker O cfg s)) as [[cmd|]|]; try done.
    apply (hand_over_cases (plan_inv plan)
             (λ s' n', steps_left s' n' <
                       steps_left s (agent_node (identity cfg))));
      destruct Hcases as
        [(r & pt & t & rest & Hact & Hpt & Htg & Hreq & Hwait & Hq & ->)
        |[(pt & t & rest & res & Hact & Hpt & Hdev & Hq & Htd & ->)
        |[(t & rest & res & Hact & Hpt & Hq & Htd & ->)
         |(t & rest & tg & rq & Hact & Hpt & Hq & Htd & ->)]]]; simpl.
    + (* answer *)
      split; [done|]. split; [|split].
      * exists fin. unfold history. simpl. fold (history s).
        rewrite completed_snoc. simpl. rewrite app_nil_r.
        split; [done|]. split; [done|].
        intros t0 Ht0. rewrite (left_id_L ∅ (∪)). by apply Hres.
      * done.
      * simpl. intros w v Hw. exists pt. rewrite Hpt.
        split; [done|]. split; [done|].
        apply lookup_union_Some_raw in Hw as [Hw|[_ Hw]].
        -- apply lookup_singleton_Some in Hw as [<- _]. congruence.
        -- destruct (Hslots w v Hw) as (? & _ & ? & _). congruence.
    + (* resume *)
      destruct (Hhead pt Hpt) as (t' & rest' & Hq' & Hpa).
      assert (t' = t) as -> by congruence.
      split; [done|]. split; [|split].
      * exists (fin ++ [t]). unfold history. simpl. fold (history s).
        rewrite completed_snoc, Hq in *. simpl in *.
        rewrite Hplan, Hdone, fmap_app, <-app_assoc, Hpa.
        split; [done|]. split; [done|].
        intros t0 [Ht0|Ht0%list_elem_of_singleton]%elem_of_app.
        -- destruct (Hres t0 Ht0) as [x Hx].
           destruct (decide (identity cfg = task_device t0)) as [<-|Hne].
           ++ rewrite lookup_union_l', lookup_singleton_eq; [by eexists|].
              rewrite lookup_singleton_eq. by eexists.
           ++ rewrite lookup_union_r by by rewrite lookup_singleton_ne.
              by eexists.
        -- subst t0. rewrite Htd.
           rewrite lookup_union_l', lookup_singleton_eq; [by eexists|].
           rewrite lookup_singleton_eq. by eexists.
      * done.
      * simpl. intros w v Hw.
        apply lookup_union_Some_raw in Hw as [Hw|[Hw' Hw]].
        -- by apply lookup_singleton_Some in Hw as [_ ?].
        -- destruct (Hslots w v Hw) as (pt' & Hpt' & _ & ->).
           assert (pt' = pt) as -> by congruence.
           by rewrite lookup_singleton_eq in Hw'.
    + (* direct completion *)
      split; [done|]. split; [|split].
      * exists (fin ++ [t]). unfold history. simpl. fold (history s).
        rewrite completed_snoc, Hq in *. simpl in *.
        rewrite Hplan, Hdone, fmap_app, <-app_assoc.
        split; [done|]. split; [done|].
        intros t0 [Ht0|Ht0%list_elem_of_singleton]%elem_of_app.
        -- destruct (Hres t0 Ht0) as [x Hx].
           destruct (decide (identity cfg = task_device t0)) as [<-|Hne].
           ++ rewrite lookup_union_l', lookup_singleton_eq; [by eexists|].
              rewrite lookup_singleton_eq. by eexists.
           ++ rewrite lookup_union_r by by rewrite lookup_singleton_ne.
              by eexists.
        -- subst t0. rewrite Htd.
           rewrite lookup_union_l', lookup_singleton_eq; [by eexists|].
           rewrite lookup_singleton_eq. by eexists.
      * simpl. intros pt. by rewrite Hpt.
      * simpl. intros w v Hw. rewrite (left_id_L ∅ (∪)) in Hw.
        destruct (Hslots w v Hw) as (? & ? & _). congruence.
    + (* delegation *)
      split; [done|]. split; [|split].
      * exists fin. unfold history. simpl. fold (history s).
        rewrite completed_snoc. simpl. rewrite app_nil_r.
        split; [done|]. split; [done|].
        intros t0 Ht0. rewrite (left_id_L ∅ (∪)). by apply Hres.
      * simpl. intros pt [= <-]. by exists t, rest.
      * simpl. intros w v Hw. rewrite (left_id_L ∅ (∪)) in Hw.
        destruct (Hslots w v Hw) as (? & ? & _). congruence.
    + (* answer: the measure *)
      intros n' [= <-]. unfold steps_left, active. simpl.
      rewrite Hpt, Hq. fold (active s).
      rewrite Hact. repeat case_decide; simpl in *;
        try lia; try done; by (exfalso; eapply agent_node_not_planner).
    + intros n' [= <-]. unfold steps_left, active. simpl.
      rewrite Hpt, Hq. fold (active s).
      rewrite Hact. repeat case_decide; simpl in *;
        try lia; try done; by (exfalso; eapply agent_node_not_planner).
    + intros n' [= <-]. unfold steps_left, active. simpl. rewrite Hpt, Hq.
      repeat case_decide; simpl in *;
        try lia; try done; by (exfalso; eapply agent_node_not_planner).
    + intros n' [= <-]. unfold steps_left, active. simpl. rewrite Hpt, Hq.
      repeat case_decide; simpl in *;
        try lia; try done; by (exfalso; eapply agent_node_not_planner).
Qed.

Lemma steps_left_pos (s : SmartHomeState) (n : string) :
  protocol_inv O s (Some n) → 0 < steps_left s n.
Proof.
  intros (_ & _ & Hpend). unfold steps_left.
  destruct (mjoin (pending_task s)) as [pt|].
  - destruct Hpend as (_ & (t & rest & -> & _) & _). simpl.
    destruct (active s); lia.
  - destruct Hpend as (_ & [->|(t & rest & -> & ->)]).
    + rewrite decide_True by done. lia.
    + rewrite decide_False by apply agent_node_not_planner. simpl. lia.
Qed.

(** A run started inside a turn: where it stands, and how much is left. *)
Lemma run_turn (plan : list Task) (fuel : nat) (s : SmartHomeState)
    (n : string) :
  protocol_inv O s (Some n) →
  plan_inv plan s →
  match (run O fuel s n).2 with
  | Continue s' n' =>
      protocol_inv O s' (Some n') ∧ plan_inv plan s' ∧
      steps_left s' n' + fuel ≤ steps_left s n
  | Finished s' => protocol_inv O s' None ∧ plan_inv plan s'
  | _ => True
  end.
Proof.
  revert s n. induction fuel as [|k IH]; intros s n Hinv Hplan; simpl.
  { split; [done|]. split; [done|]. lia. }
  pose proof (turn_step plan s n Hinv Hplan) as Hstep.
  pose proof (step_inv O s n Hinv) as Hinv'.
  destruct (step O s n) as [s1 n1|s1| |]; simpl; try done.
  destruct Hstep as [Hplan1 Hlt]. specialize (IH s1 n1 Hinv' Hplan1).
    destruct (run O k s1 n1) as [trace r]. simpl in *.
    destruct r as [s2 n2|s2| |]; try done.
    destruct IH as (? & ? & ?). split; [done|]. split; [done|]. lia.
Qed.

(** Once a run is over, more fuel changes nothing. *)
Lemma run_more_fuel (k k' : nat) (s : SmartHomeState) (n : string) :
  paused (run O k s n).2 = false → k ≤ k' → run O k' s n = run O k s n.
Proof.
  revert k' s n. induction k as [|k IH]; intros k' s n Hover Hle; [done|].
  destruct k' as [|k']; [lia|]. simpl in *.
  destruct (step O s n) as [s1 n1|s1| |]; try done.
  specialize (IH k' s1 n1).
  destruct (run O k s1 n1) as [trace r]. simpl in *.
  by rewrite IH by (done || lia).
Qed.

Lemma run_trace_length (fuel : nat) (s : SmartHomeState) (n : string) :
  length (run O fuel s n).1 ≤ fuel.
Proof.
  revert s n. induction fuel as [|k IH]; intros s n; simpl; [done|].
  destruct (step O s n) as [s1 n1|s1| |]; simpl; try lia.
  specialize (IH s1 n1). destruct (run O k s1 n1). simpl in *. lia.
Qed.

(** The first step of a turn. *)
Lemma entry_step (s : SmartHomeState) :
  turn_entry s →
  match step O s "task_planner" with
  | Continue s' n' =>
      protocol_inv O s' (Some n') ∧ plan_inv (planned O s) s' ∧
      steps_left s' n' = 4 * length (planned O s)
  | Finished s' => protocol_inv O s' None ∧ plan_inv (planned O s) s'
  | _ => True
  end.
Proof.
  intros Hentry.
  pose proof (step_inv O s "task_planner" (entry_inv O s Hentry)) as Hinv'.
  destruct Hentry as (Hq & Hc & Hp & Hh & Hresp & Hres).
  revert Hinv'. unfold step, planned. simpl. unfold task_planner.
  rewrite Hq. simpl.
  destruct (truthy (original_user_input s)) eqn:Hin; simpl.
  - destruct (ask_plan O _ _ _) as [[|t rest]|]; simpl; try done.
    intros Hinv'.
    assert (plan_inv (t :: rest)
              (apply_update s
                 (mkUpdate (Some "") (Some (t :: rest)) None None None ∅ ∅)))
      as Hplan.
    { split; [done|]. split; [|split].
      * exists []. unfold history. simpl. rewrite Hh. simpl.
        split; [done|]. split; [done|]. by intros t0 ?%elem_of_nil.
      * simpl. by rewrite Hp.
      * simpl. intros w v. by rewrite (left_id_L ∅ (∪)), Hresp. }
    revert Hinv'. unfold hand_over.
    destruct (successor O _) as [n'|] eqn:Hsucc; [|done].
    apply successor_Some in Hsucc as [[= <-] _].
    intros Hinv'. split; [done|]. split; [done|].
    unfold steps_left. simpl. rewrite Hp. simpl.
    rewrite decide_False by apply agent_node_not_planner. simpl. lia.
  - intros Hinv'. split; [done|]. split; [done|]. split; [|split].
    * exists []. unfold history. simpl. rewrite Hh. simpl.
      split; [done|]. split; [done|]. by intros t0 ?%elem_of_nil.
    * simpl. by rewrite Hp.
    * simpl. intros w v. by rewrite (left_id_L ∅ (∪)), Hresp.
Qed.

(** Where a run from the start of a turn stands. *)
Lemma turn_run (fuel : nat) (s : SmartHomeState) :
  turn_entry s →
  match (run O fuel s "task_planner").2 with
  | Continue s' n' =>
      (fuel = 0 ∧ s' = s ∧ n' = "task_planner") ∨
      (protocol_inv O s' (Some n') ∧ plan_inv (planned O s) s' ∧
       steps_left s' n' + fuel ≤ 4 * length (planned O s) + 1)
  | Finished s' => protocol_inv O s' None ∧ plan_inv (planned O s) s'
  | _ => True
  end.
Proof.
  intros Hentry. destruct fuel as [|k]; simpl; [by left|].
  pose proof (entry_step s Hentry) as Hstep.
  destruct (step O s "task_planner") as [s1 n1|s1| |]; simpl; try done.
  destruct Hstep as (Hinv & Hplan & Hleft).
  pose proof (run_turn (planned O s) k s1 n1 Hinv Hplan) as Hrun.
  destruct (run O k s1 n1) as [trace r]. simpl in *.
  destruct r as [s2 n2|s2| |]; try done.
  destruct Hrun as (? & ? & ?). right.
  split; [done|]. split; [done|]. lia.
Qed.

End Turn.

(* ------------------------------------------------------------------ *)
(** ** A turn from start to end *)

Lemma relax_entry_ok : turn_entry relax_entry.
Proof. by repeat split. Qed.

(** X1.  A turn ends: from the start of a turn, [4 * p + 1] steps, [p] the
    length of the plan, are enough for the run to be over (finished or
    failed); the run never has more nodes than that, and more fuel gives the
    same run. *)
Theorem turn_terminates (O : Oracle) (s : SmartHomeState) (fuel : nat) :
  turn_entry s →
  4 * length (planned O s) + 1 ≤ fuel →
  paused (run O fuel s "task_planner").2 = false ∧
  length (run O fuel s "task_planner").1 ≤ 4 * length (planned O s) + 1 ∧
  run O fuel s "task_planner" =
    run O (4 * length (planned O s) + 1) s "task_planner".
Proof.
  intros Hentry Hfuel.
  assert (paused (run O (4 * length (planned O s) + 1) s "task_planner").2
            = false) as Hover.
  { pose proof (turn_run O (4 * length (planned O s) + 1) s Hentry) as Hrun.
    destruct (run O _ s "task_planner").2 as [s' n'|s'| |]; try done.
    destruct Hrun as [(? & _)|(Hinv & _ & Hle)]; [lia|].
    pose proof (steps_left_pos O s' n' Hinv). lia. }
  rewrite (run_more_fuel O _ fuel s "task_planner" Hover Hfuel).
  split; [done|]. split; [apply run_trace_length | done].
Qed.

Lemma turn_terminates_witness :
  paused (run relax_oracle 20 relax_entry "task_planner").2 = false ∧
  length (run relax_oracle 20 relax_entry "task_planner").1 ≤ 13 ∧
  run relax_oracle 20 relax_entry "task_planner" =
    run relax_oracle 13 relax_entry "task_planner".
Proof.
  apply (turn_terminates relax_oracle relax_entry 20).
  - by repeat split.
  - vm_compute. lia.
Defined.

(** X2.  Tasks are completed in plan order: at every point of a turn past
    its first step, and at its end, the plan is the tasks completed so far
    followed by the queue, and the [task_completion] entries of the history
    carry the actions of the tasks completed, in that order. *)
Theorem tasks_complete_in_plan_order (O : Oracle) (s s' : SmartHomeState)
    (fuel : nat) (trace : list string) (n' : string) :
  turn_entry s →
  run O (S fuel) s "task_planner" = (trace, Continue s' n') ∨
  run O fuel s "task_planner" = (trace, Finished s') →
  ∃ finished,
    planned O s = finished ++ default [] (task_queue s') ∧
    completed (history s') = task_action <$> finished.
Proof.
  intros Hentry [Hrun|Hrun].
  - pose proof (turn_run O (S fuel) s Hentry) as H. rewrite Hrun in H.
    destruct H as [(? & _)|(_ & (_ & (fin & ? & ? & _) & _) & _)]; [done|].
    by exists fin.
  - pose proof (turn_run O fuel s Hentry) as H. rewrite Hrun in H.
    destruct H as (_ & _ & (fin & ? & ? & _) & _). by exists fin.
Qed.

Lemma tasks_complete_in_plan_order_witness :
  ∃ finished,
    planned relax_oracle relax_entry =
      finished ++ [mkTask "thermostat"
                     "set a comfortable temperature for users to relax better"]
    ∧ ["play relaxing music"; "dim the lighting to help users relax"]
      = task_action <$> finished.
Proof.
  destruct (tasks_complete_in_plan_order relax_oracle relax_entry _ 4 _ _
              relax_entry_ok (or_introl eq_refl)) as (fin & Hplan & Hdone).
  exists fin. split; [exact Hplan | exact Hdone].
Defined.

(** X3.  How a turn ends.  Whenever a turn finishes, every response slot
    reads [None], and the tasks done are the plan up to the queue, each with
    its result key written.  The end is one of three.  Clean: the queue is
    empty, nothing is pending, no request is held or outstanding, and the
    completions are those of the whole plan.  Or the planner named a device
    that is no node of the graph: the task is still at the head of the
    queue, nothing is pending and no request is held.  Or a worker
    delegated to a target that is no node of the graph: the request is
    still held and outstanding, and the head task is still pending on that
    target. *)
Theorem turn_end_state (O : Oracle) (s s' : SmartHomeState) (fuel : nat)
    (trace : list string) :
  turn_entry s →
  run O fuel s "task_planner" = (trace, Finished s') →
  (∀ w, mjoin (responses s' !! w) = None) ∧
  (∃ finished,
     planned O s = finished ++ default [] (task_queue s') ∧
     completed (history s') = task_action <$> finished ∧
     ∀ t, t ∈ finished → is_Some (results s' !! task_device t)) ∧
  ((task_queue s' = Some [] ∧
    mjoin (pending_task s') = None ∧
    active s' = None ∧
    outstanding (history s') = 0 ∧
    completed (history s') = task_action <$> planned O s ∧
    (∀ t, t ∈ planned O s → is_Some (results s' !! task_device t))) ∨
   (∃ t rest,
      task_queue s' = Some (t :: rest) ∧
      node O (agent_node (task_device t)) = None ∧
      mjoin (pending_task s') = None ∧
      active s' = None ∧
      outstanding (history s') = 0) ∨
   (∃ t rest target request,
      task_queue s' = Some (t :: rest) ∧
      node O (agent_node target) = None ∧
      mjoin (pending_task s') =
        Some (mkPending (task_device t) (task_action t) target) ∧
      active s' = Some (mkRequest (task_device t) target request) ∧
      outstanding (history s') = 1)).
Proof.
  intros Hentry Hrun.
  pose proof (turn_run O fuel s Hentry) as H. rewrite Hrun in H.
  destruct H as ((Hq & Hcount & Hpend) &
                 (Hin & (fin & Hplan & Hdone & Hres) & Hhead & Hslots)).
  split.
  { intros w. destruct (responses s' !! w) as [[v|]|] eqn:Hw; try done.
    destruct (Hslots w v Hw) as (pt & Hpt & Hidle & _).
    rewrite Hpt in Hpend.
    destruct Hpend as (_ & _ & [(r & Hr & _)|[_ ?]]); [congruence | done]. }
  split; [by exists fin|].
  destruct (mjoin (pending_task s')) as [pt|] eqn:Hpt.
  - right. right.
    destruct Hpend as (_ & (t & rest & Hq' & Hdev) &
                       [(r & Hr & Hreq & Htg & Hn)|[_ ?]]); [|done].
    destruct (Hhead pt eq_refl) as (t' & rest' & Hq'' & Hpa).
    assert (t' = t) as -> by congruence.
    symmetry in Hn. apply successor_None in Hn as [?|(n & Hn & Hnone)];
      [done|]. injection Hn as <-.
    exists t, rest, (cr_target r), (cr_request r).
    split; [done|]. split; [done|]. split; [|split].
    + destruct pt as [d a w]. simpl in *. by subst.
    + rewrite Hr. destruct r as [rq tg q]. simpl in *. congruence.
    + unfold outstanding. rewrite Hcount, Hr. lia.
  - destruct Hpend as [Hidle Hdisp].
    assert (outstanding (history s') = 0) as Hout.
    { unfold outstanding. rewrite Hcount, Hidle. lia. }
    destruct Hq as [[|t rest] Hq].
    + left. rewrite Hq in Hplan. simpl in Hplan.
      rewrite app_nil_r in Hplan. by subst fin.
    + right. left. exists t, rest. split; [done|].
      split; [by eapply Hdisp | done].
Qed.

Lemma turn_end_state_witness :
  (∃ s',
     run relax_oracle 13 relax_entry "task_planner" =
       (["task_planner"; "audio_system_agent"; "task_planner";
         "lighting_agent"; "task_planner"; "thermostat_agent";
         "task_planner"], Finished s') ∧
     (∀ w, mjoin (responses s' !! w) = None) ∧
     ∃ finished,
       planned relax_oracle relax_entry =
         finished ++ default [] (task_queue s') ∧
       completed (history s') = task_action <$> finished) ∧
  (∃ s',
     run toaster_oracle 5 entry_state "task_planner" =
       (["task_planner"], Finished s') ∧
     ∀ w, mjoin (responses s' !! w) = None) ∧
  (∃ s',
     run stray_oracle 5 entry_state "task_planner" =
       (["task_planner"; "search_engine_agent"], Finished s') ∧
     ∀ w, mjoin (responses s' !! w) = None).
Proof.
  split; [|split].
  - eexists. split; [reflexivity|].
    destruct (turn_end_state relax_oracle relax_entry _ 13 _ relax_entry_ok
                eq_refl) as (Hslots & (fin & Hplan & Hdone & _) & _).
    split; [exact Hslots|]. exists fin. split; [exact Hplan | exact Hdone].
  - eexists. split; [reflexivity|].
    exact (proj1 (turn_end_state toaster_oracle entry_state _ 5 _
                    entry_state_ok eq_refl)).
  - eexists. split; [reflexivity|].
    exact (proj1 (turn_end_state stray_oracle entry_state _ 5 _
                    entry_state_ok eq_refl)).
Defined.

(** X4.  A response slot is written once and then consumed: during a turn a
    response slot holds a value only for the collaborator of the pending
    task, once the request is cleared and the requester is the node about to
    run. *)
Theorem response_slot_lifetime (O : Oracle) (s s' : SmartHomeState)
    (fuel : nat) (trace : list string) (n' w v : string) :
  turn_entry s →
  run O fuel s "task_planner" = (trace, Continue s' n') →
  responses s' !! w = Some (Some v) →
  ∃ pt,
    mjoin (pending_task s') = Some pt ∧
    active s' = None ∧
    w = pt_waiting_for pt ∧
    n' = agent_node (pt_device pt).
Proof.
  intros Hentry Hrun Hw.
  pose proof (turn_run O fuel s Hentry) as H. rewrite Hrun in H.
  destruct H as [(_ & -> & _)|((_ & _ & Hpend) & (_ & _ & _ & Hslots) & _)].
  { destruct Hentry as (_ & _ & _ & _ & Hresp & _). by rewrite Hresp in Hw. }
  destruct (Hslots w v Hw) as (pt & Hpt & Hidle & ->).
  exists pt. rewrite Hpt in Hpend.
  destruct Hpend as (_ & _ & [(? & ? & _)|[_ Hn]]); [congruence|].
  by injection Hn as ->.
Qed.

Lemma response_slot_lifetime_witness :
  ∃ pt,
    mjoin (pending_task (recipe_state 3)) = Some pt ∧
    active (recipe_state 3) = None ∧
    "fridge" = pt_waiting_for pt ∧
    "search_engine_agent" = agent_node (pt_device pt).
Proof.
  exact (response_slot_lifetime recipe_oracle entry_state (recipe_state 3) 3
           _ "search_engine_agent" "fridge" "eggs, tomatoes, rice"
           entry_state_ok eq_refl eq_refl).
Defined.

(** X5.  The requester resumes with the answer its collaborator gave: when
    a request is held during a turn and its target is a node of the graph,
    the target's activation makes exactly the answer call for that request,
    and the requester's next activation makes exactly one resume call, for
    the action of the head task, with the history as extended by the
    target, the cleared request, and the target's answer. *)
Theorem resume_reads_answer (O : Oracle) (s0 s : SmartHomeState) (fuel : nat)
    (trace : list string) (n : string) (r : CollaborationRequest) :
  turn_entry s0 →
  run O fuel s0 "task_planner" = (trace, Continue s n) →
  active s = Some r →
  is_Some (node O n) →
  ∃ t rest s1,
    task_queue s = Some (t :: rest) ∧
    step_calls O s n =
      [AnswerCall (cr_target r) (cr_requester r) (cr_request r)] ∧
    step O s n = Continue s1 (agent_node (cr_requester r)) ∧
    step_calls O s1 (agent_node (cr_requester r)) =
      [ResumeCall (cr_requester r) (task_action t) (history s1)
         (Some EmptyDict) (cr_target r)
         (ask_answer O (cr_target r) (cr_requester r) (cr_request r))].
Proof.
  intros Hentry Hrun Hact [f Hnode].
  pose proof (turn_run O fuel s0 Hentry) as H. rewrite Hrun in H.
  destruct H as [(_ & -> & _)|(Hinv & Hplan & _)].
  { destruct Hentry as (_ & Hc & _). unfold active in Hact.
    by rewrite Hc in Hact. }
  pose proof Hinv as (_ & _ & Hpend).
  destruct (mjoin (pending_task s)) as [pt|] eqn:Hpt;
    [|destruct Hpend; congruence].
  destruct Hpend as ((cfg2 & Hcfg2 & Hid2) & _ &
                     [(r' & Hr' & Hreq & Htg & Hn)|[? _]]); [|congruence].
  assert (r' = r) as -> by congruence.
  symmetry in Hn. apply successor_Some in Hn as [Hn _]. injection Hn as <-.
  apply node_cases in Hnode as [[Hn _]|(cfg1 & Hcfg1 & Hn & ->)];
    [by apply agent_node_not_planner in Hn|].
  apply agent_node_inj in Hn.
  destruct Hplan as (_ & _ & Hhead & _).
  destruct (Hhead pt Hpt) as (t & rest & Hq & Hpa).
  assert (inbound_request cfg1 (collaboration_request s) = Some r) as Hin.
  { unfold active in Hact. unfold inbound_request.
    destruct (collaboration_request s) as [[|r0]|]; try done.
    simplify_eq. by rewrite decide_True. }
  exists t, rest. eexists. split; [done|].
  unfold step_calls, step. rewrite Hn, (node_worker O cfg1 Hcfg1).
  rewrite worker_branch, Hin. unfold respond, hand_over. simpl.
  rewrite Hreq, <-Hid2, (successor_worker O cfg2 Hcfg2).
  split; [done|]. split; [done|].
  rewrite (node_worker O cfg2 Hcfg2), worker_branch. simpl.
  rewrite Hpt. simpl. rewrite decide_True by done.
  unfold complete_pending. simpl.
  rewrite <-Htg, Hn, Hpa.
  rewrite lookup_union_l' by (rewrite lookup_singleton_eq; by eexists).
  by rewrite lookup_singleton_eq.
Qed.

Lemma resume_reads_answer_witness :
  ∃ t rest s1,
    task_queue (recipe_state 2) = Some (t :: rest) ∧
    step_calls recipe_oracle (recipe_state 2) "fridge_agent" =
      [AnswerCall "fridge" "search_engine" "What ingredients are available?"] ∧
    step recipe_oracle (recipe_state 2) "fridge_agent" =
      Continue s1 "search_engine_agent" ∧
    step_calls recipe_oracle s1 "search_engine_agent" =
      [ResumeCall "search_engine" (task_action t) (history s1)
         (Some EmptyDict) "fridge" (Some "eggs, tomatoes, rice")].
Proof.
  apply (resume_reads_answer recipe_oracle entry_state (recipe_state 2) 2
           ["task_planner"; "search_engine_agent"] "fridge_agent"
           (mkRequest "search_engine" "fridge"
              "What ingredients are available?")).
  - exact entry_state_ok.
  - reflexivity.
  - reflexivity.
  - eexists. reflexivity.
Defined.

(* ------------------------------------------------------------------ *)
(** ** Single activations: the new-task branch and its edges *)

(** X6.  A head task completed without collaboration: when the reply names
    no target, the worker makes one new-task call and the step leads to the
    planner with the queue popped, the worker's result key holding
    [result.get("response")] (whatever it is, [None] included), one
    [task_completion] entry appended, and everything else as before: the
    request, the pending task and every response slot are not touched. *)
Theorem direct_completion_frame (O : Oracle) (cfg : WorkerConfig)
    (s : SmartHomeState) (t : Task) (rest : list Task) :
  cfg ∈ workers →
  inbound_request cfg (collaboration_request s) = None →
  own_pending cfg (mjoin (pending_task s)) = None →
  own_head cfg (local_queue cfg s) = Some (t, rest) →
  (∀ c, reply_collaboration
          (ask_decide O (identity cfg) (task_action t) (history s)) = Some c →
        truthy (reply_target c) = false) →
  let res :=
    reply_response (ask_decide O (identity cfg) (task_action t) (history s)) in
  step_calls O s (agent_node (identity cfg)) =
    [DecideCall (identity cfg) (task_action t) (history s)] ∧
  step O s (agent_node (identity cfg)) =
    Continue
      (mkState (messages s) (complexity_score s) (infos s)
         (original_user_input s)
         (Some rest)
         (key_modifiers s)
         (collaboration_request s)
         (pending_task s)
         (Some (history s ++
            [mkEntry (history_name cfg) "task_completion" (task_action t)
               (Text res)]))
         (responses s)
         (<[identity cfg := res]> (results s)))
      "task_planner".
Proof.
  intros Hcfg Hin Hown Hhead Hreply res. subst res.
  unfold step_calls, step.
  rewrite (node_worker O cfg Hcfg), worker_branch, Hin, Hown, Hhead.
  unfold handle_new_task. simpl.
  destruct (reply_collaboration _) as [c|] eqn:Hc.
  - rewrite (Hreply c eq_refl). simpl. split; [done|].
    unfold apply_update. simpl.
    by rewrite (left_id_L ∅ (∪)), insert_union_singleton_l.
  - simpl. split; [done|]. unfold apply_update. simpl.
    by rewrite (left_id_L ∅ (∪)), insert_union_singleton_l.
Qed.

Lemma direct_completion_frame_witness :
  step_calls relax_oracle relax_state "audio_system_agent" =
    [DecideCall "audio_system" "play relaxing music" []] ∧
  step relax_oracle relax_state "audio_system_agent" =
    Continue
      (mkState ["I'm tired and need relax"] (Some 2)
         (Some ["I'm tired"; "need relax"]) (Some "")
         (Some [mkTask "lighting" "dim the lighting to help users relax"])
         (Some []) (Some EmptyDict) None
         (Some [mkEntry "audio system" "task_completion"
                  "play relaxing music" (Text (Some "audio_system done"))])
         ∅ (<["audio_system" := Some "audio_system done"]> ∅))
      "task_planner".
Proof.
  apply (direct_completion_frame relax_oracle audio_system_cfg relax_state
           (mkTask "audio_system" "play relaxing music")
           [mkTask "lighting" "dim the lighting to help users relax"]).
  - unfold workers. set_solver.
  - reflexivity.
  - reflexivity.
  - reflexivity.
  - intros c Hc. discriminate Hc.
Defined.

(** X7.  A head task delegated: when the reply names a non-empty target and
    a request, the worker makes one new-task call and returns a [Command]
    that writes the request [{requester: worker, target, request}] and the
    pending task [{device: worker, action: head action, waiting_for:
    target}], appends one [collaboration_request] entry and names the
    target's node as successor; the queue is not popped and no result or
    response slot is written.  The target is not checked.  When it is a
    node of the graph, that node runs next; when it is not, the run ends
    there, with the request and the pending task left in the state. *)
Theorem delegation_frame (O : Oracle) (cfg : WorkerConfig)
    (s : SmartHomeState) (t : Task) (rest : list Task) (c : CollabReply)
    (target request : string) :
  cfg ∈ workers →
  inbound_request cfg (collaboration_request s) = None →
  own_pending cfg (mjoin (pending_task s)) = None →
  own_head cfg (local_queue cfg s) = Some (t, rest) →
  reply_collaboration
    (ask_decide O (identity cfg) (task_action t) (history s)) = Some c →
  reply_target c = Some target → target ≠ "" →
  reply_request c = Some request →
  let e :=
    mkEntry (history_name cfg) "collaboration_request" (task_action t)
      (Delegation target request) in
  let s' :=
    mkState (messages s) (complexity_score s) (infos s)
      (original_user_input s)
      (task_queue s)
      (key_modifiers s)
      (Some (Request (mkRequest (identity cfg) target request)))
      (Some (Some (mkPending (identity cfg) (task_action t) target)))
      (Some (history s ++ [e]))
      (responses s)
      (results s) in
  worker O cfg s =
    mkActivation [DecideCall (identity cfg) (task_action t) (history s)]
      (Return (Some (mkCommand
         (mkUpdate None None
            (Some (Request (mkRequest (identity cfg) target request)))
            (Some (Some (mkPending (identity cfg) (task_action t) target)))
            (Some (history s ++ [e])) ∅ ∅)
         (Some (agent_node target))))) ∧
  (is_Some (node O (agent_node target)) →
   step O s (agent_node (identity cfg)) = Continue s' (agent_node target)) ∧
  (node O (agent_node target) = None →
   step O s (agent_node (identity cfg)) = Finished s').
Proof.
  intros Hcfg Hin Hown Hhead Hc Htarget Hne Hrequest e s'.
  assert (worker O cfg s =
            mkActivation
              [DecideCall (identity cfg) (task_action t) (history s)]
              (Return (Some (mkCommand
                 (mkUpdate None None
                    (Some (Request (mkRequest (identity cfg) target request)))
                    (Some (Some (mkPending (identity cfg) (task_action t)
                                   target)))
                    (Some (history s ++ [e])) ∅ ∅)
                 (Some (agent_node target)))))) as Hw.
  { rewrite worker_branch, Hin, Hown, Hhead.
    unfold handle_new_task. simpl. rewrite Hc, Htarget, Hrequest. simpl.
    by rewrite bool_decide_eq_false_2 by done. }
  split; [done|].
  assert (step O s (agent_node (identity cfg)) =
            hand_over O s' (Some (agent_node target))) as ->.
  { unfold step. rewrite (node_worker O cfg Hcfg), Hw. simpl.
    unfold apply_update. simpl. by rewrite !(left_id_L ∅ (∪)). }
  unfold hand_over, successor.
  split; [intros [f ->] | intros ->]; done.
Qed.

Lemma delegation_frame_witness :
  step recipe_oracle (recipe_state 1) "search_engine_agent" =
    Continue
      (mkState ["What should I cook tonight?"] (Some 1)
         (Some ["What should I cook tonight?"]) (Some "")
         (Some [recipe_task]) (Some [])
         (Some (Request (mkRequest "search_engine" "fridge"
                           "What ingredients are available?")))
         (Some (Some (mkPending "search_engine"
                        "suggest recipes using available ingredients"
                        "fridge")))
         (Some [mkEntry "search_engine" "collaboration_request"
                  "suggest recipes using available ingredients"
                  (Delegation "fridge" "What ingredients are available?")])
         ∅ ∅)
      "fridge_agent" ∧
  step stray_oracle (recipe_state 1) "search_engine_agent" =
    Finished
      (mkState ["What should I cook tonight?"] (Some 1)
         (Some ["What should I cook tonight?"]) (Some "")
         (Some [recipe_task]) (Some [])
         (Some (Request (mkRequest "search_engine" "pantry"
                           "What is in stock?")))
         (Some (Some (mkPending "search_engine"
                        "suggest recipes using available ingredients"
                        "pantry")))
         (Some [mkEntry "search_engine" "collaboration_request"
                  "suggest recipes using available ingredients"
                  (Delegation "pantry" "What is in stock?")])
         ∅ ∅).
Proof.
  split.
  - apply (delegation_frame recipe_oracle search_engine_cfg (recipe_state 1)
             recipe_task []
             (mkCollabReply (Some "fridge")
                (Some "What ingredients are available?"))
             "fridge" "What ingredients are available?").
    + unfold workers. set_solver.
    + reflexivity.
    + reflexivity.
    + reflexivity.
    + reflexivity.
    + reflexivity.
    + discriminate.
    + reflexivity.
    + eexists. reflexivity.
  - apply (delegation_frame stray_oracle search_engine_cfg (recipe_state 1)
             recipe_task []
             (mkCollabReply (Some "pantry") (Some "What is in stock?"))
             "pantry" "What is in stock?").
    + unfold workers. set_solver.
    + reflexivity.
    + reflexivity.
    + reflexivity.
    + reflexivity.
    + reflexivity.
    + discriminate.
    + reflexivity.
    + reflexivity.
Defined.

(** X8.  A reply that names a target but has no ["request"] key makes the
    worker raise [KeyError] after the Oracle call: the step fails and
    nothing is written. *)
Theorem delegation_without_request_raises (O : Oracle) (cfg : WorkerConfig)
    (s : SmartHomeState) (t : Task) (rest : list Task) (c : CollabReply)
    (target : string) :
  cfg ∈ workers →
  inbound_request cfg (collaboration_request s) = None →
  own_pending cfg (mjoin (pending_task s)) = None →
  own_head cfg (local_queue cfg s) = Some (t, rest) →
  reply_collaboration
    (ask_decide O (identity cfg) (task_action t) (history s)) = Some c →
  reply_target c = Some target → target ≠ "" →
  reply_request c = None →
  worker O cfg s =
    mkActivation [DecideCall (identity cfg) (task_action t) (history s)]
      (Raise KeyError) ∧
  step O s (agent_node (identity cfg)) = Failed KeyError.
Proof.
  intros Hcfg Hin Hown Hhead Hc Htarget Hne Hrequest.
  unfold step.
  rewrite (node_worker O cfg Hcfg), worker_branch, Hin, Hown, Hhead.
  unfold handle_new_task. simpl. rewrite Hc, Htarget, Hrequest. simpl.
  by rewrite bool_decide_eq_false_2 by done.
Qed.

Lemma delegation_without_request_raises_witness :
  worker careless_oracle audio_system_cfg relax_state =
    mkActivation [DecideCall "audio_system" "play relaxing music" []]
      (Raise KeyError) ∧
  step careless_oracle relax_state "audio_system_agent" = Failed KeyError.
Proof.
  apply (delegation_without_request_raises careless_oracle audio_system_cfg
           relax_state (mkTask "audio_system" "play relaxing music")
           [mkTask "lighting" "dim the lighting to help users relax"]
           (mkCollabReply (Some "clock") None) "clock").
  - unfold workers. set_solver.
  - reflexivity.
  - reflexivity.
  - reflexivity.
  - reflexivity.
  - reflexivity.
  - discriminate.
  - reflexivity.
Defined.

(** X9.  Resuming with nothing to pop.  When a worker resumes its pending
    task and the queue is empty, it writes the empty queue: the slice
    [task_queue[1:]] does not fail.  When the ["task_queue"] key is missing,
    the seven workers that read it with a default do the same, and
    [fridge_agent], which reads it without one, raises [TypeError] after
    its resume call. *)
Theorem resume_without_queue (O : Oracle) (cfg : WorkerConfig)
    (s : SmartHomeState) (pt : PendingTask) :
  cfg ∈ workers →
  inbound_request cfg (collaboration_request s) = None →
  own_pending cfg (mjoin (pending_task s)) = Some pt →
  default [] (task_queue s) = [] →
  (queue_default cfg = false ↔ cfg = fridge_cfg) ∧
  length (calls (worker O cfg s)) = 1 ∧
  (task_queue s = None ∧ cfg = fridge_cfg →
     result (worker O cfg s) = Raise TypeError) ∧
  (task_queue s = Some [] ∨ cfg ≠ fridge_cfg →
     ∃ cmd, result (worker O cfg s) = Return (Some cmd) ∧
            u_task_queue (update cmd) = Some [] ∧
            goto cmd = Some "task_planner").
Proof.
  intros Hcfg Hin Hown Hq.
  assert (queue_default cfg = false ↔ cfg = fridge_cfg) as Hfridge.
  { revert Hcfg. unfold workers. rewrite !elem_of_cons, elem_of_nil.
    intros H; decompose [or] H; subst; done. }
  split; [done|].
  rewrite worker_branch, Hin, Hown. unfold complete_pending, local_queue.
  split; [done|]. split.
  - intros [-> ->]. done.
  - intros Hcase. destruct (queue_default cfg) eqn:Hdef.
    + rewrite Hq. by eexists.
    + destruct Hcase as [->|Hne]; [by eexists|].
      by destruct Hne; apply Hfridge.
Qed.

Lemma resume_without_queue_witness :
  result (fridge_agent recipe_oracle (no_queue_state "fridge")) =
    Raise TypeError ∧
  ∃ cmd, result (clock_agent recipe_oracle (no_queue_state "clock")) =
           Return (Some cmd) ∧
         u_task_queue (update cmd) = Some [] ∧
         goto cmd = Some "task_planner".
Proof.
  split.
  - destruct (resume_without_queue recipe_oracle fridge_cfg
                (no_queue_state "fridge")
                (mkPending "fridge" "what's in the fridge" "search_engine"))
      as (_ & _ & Hraise & _).
    + unfold workers. set_solver.
    + reflexivity.
    + reflexivity.
    + reflexivity.
    + apply Hraise. split; reflexivity.
  - destruct (resume_without_queue recipe_oracle clock_cfg
                (no_queue_state "clock")
                (mkPending "clock" "what's in the fridge" "search_engine"))
      as (_ & _ & _ & Hreturn).
    + unfold workers. set_solver.
    + reflexivity.
    + reflexivity.
    + reflexivity.
    + apply Hreturn. right. discriminate.
Defined.

(** X10.  A device name resolves to a node of the graph exactly when it is
    one of the eight names [clock], [calendar], [search_engine],
    [tv_display], [fridge], [lighting], [thermostat], [audio_system], and
    then to that worker; in particular the name ["audio system"] that
    [audio_system_agent] writes into the history resolves to no node. *)
Theorem dispatch_resolves_catalog (O : Oracle) (device : string) :
  (is_Some (node O (agent_node device)) ↔
   device ∈ ["clock"; "calendar"; "search_engine"; "tv_display"; "fridge";
             "lighting"; "thermostat"; "audio_system"]) ∧
  (∀ f, node O (agent_node device) = Some f →
     ∃ cfg, cfg ∈ workers ∧ identity cfg = device ∧ f = worker O cfg) ∧
  node O (agent_node (history_name audio_system_cfg)) = None.
Proof.
  split; [|split].
  - split.
    + intros [f Hf].
      apply node_cases in Hf as [[Hn _]|(cfg & Hcfg & Hn & _)];
        [by apply agent_node_not_planner in Hn|].
      apply agent_node_inj in Hn. subst device. revert Hcfg.
      unfold workers. rewrite !elem_of_cons, !elem_of_nil.
      intros H; decompose [or] H; subst; simpl; tauto.
    + rewrite !elem_of_cons, elem_of_nil.
      intros H; decompose [or] H; subst; try done; by eexists.
  - intros f Hf.
    apply node_cases in Hf as [[Hn _]|(cfg & Hcfg & Hn & ->)];
      [by apply agent_node_not_planner in Hn|].
    apply agent_node_inj in Hn. by exists cfg.
  - reflexivity.
Qed.

Lemma dispatch_resolves_catalog_witness :
  is_Some (node recipe_oracle (agent_node "audio_system")) ∧
  ¬ is_Some (node recipe_oracle (agent_node "audio system")).
Proof.
  destruct (dispatch_resolves_catalog recipe_oracle "audio_system")
    as ([_ Hyes] & _).
  destruct (dispatch_resolves_catalog recipe_oracle "audio system")
    as ([Hno _] & _).
  split.
  - apply Hyes. rewrite !elem_of_cons.
    by repeat (first [left; reflexivity | right]).
  - intros H. apply Hno in H. rewrite !elem_of_cons, elem_of_nil in H.
    repeat (destruct H as [H|H]; [discriminate H|]). done.
Defined.

(* ------------------------------------------------------------------ *)
(** ** Before the planner: [human] and [intent_analysis] *)

Lemma space_not_lowered (c : Ascii.ascii) :
  isspace c = true → lower_char c = c.
Proof.
  destruct c as [[] [] [] [] [] [] [] []]; vm_compute; congruence.
Qed.

Lemma lstrip_blank_prefix (pre x : string) :
  lstrip pre = "" → lstrip (pre +:+ x) = lstrip x.
Proof.
  induction pre as [|c pre IH]; simpl; [done|].
  destruct (isspace c); [done | discriminate].
Qed.

Lemma lstrip_length (x : string) :
  String.length (lstrip x) ≤ String.length x.
Proof.
  induction x as [|c x IH]; simpl; [done|].
  destruct (isspace c); simpl; lia.
Qed.

Lemma rstrip_blank_suffix (x post : string) :
  rstrip post = "" → rstrip (x +:+ post) = rstrip x.
Proof.
  intros Hpost. induction x as [|c x IH]; simpl; [done|]. by rewrite IH.
Qed.

Lemma rstrip_head (c : Ascii.ascii) (x : string) :
  rstrip (String c x) = "" → isspace c = true.
Proof.
  simpl. destruct (rstrip x); [|done]. by destruct (isspace c).
Qed.

Lemma strip_blank (x : string) :
  strip x = "" → lstrip x = "" ∧ rstrip x = "".
Proof.
  unfold strip. induction x as [|c x IH]; simpl; [done|].
  destruct (isspace c) eqn:Hc.
  - intros H. by destruct (IH H) as [? ->].
  - intros H. apply rstrip_head in H. congruence.
Qed.

(** A word whose lower-case form is a quit word has no blank at either
    end. *)
Lemma quit_word_stripped (w : string) :
  lower w ∈ quit_words → lstrip w = w ∧ rstrip w = w.
Proof.
  assert (∀ c l, lower_char c = l → isspace l = false → isspace c = false)
    as Hletter.
  { intros c l Hl Hs. destruct (isspace c) eqn:Hc; [|done].
    rewrite (space_not_lowered c Hc) in Hl. congruence. }
  unfold quit_words. rewrite !elem_of_cons, elem_of_nil.
  intros [H|[H|[H|[]]]].
  - destruct w as [|c1 [|? ?]]; simpl in H; try discriminate H.
    injection H as H1. simpl. by rewrite (Hletter c1 _ H1 eq_refl).
  - destruct w as [|c1 [|c2 [|c3 [|c4 [|? ?]]]]];
      simpl in H; try discriminate H.
    injection H as H1 H2 H3 H4. simpl.
    by rewrite (Hletter c1 _ H1 eq_refl), (Hletter c4 _ H4 eq_refl).
  - destruct w as [|c1 [|c2 [|c3 [|c4 [|? ?]]]]];
      simpl in H; try discriminate H.
    injection H as H1 H2 H3 H4. simpl.
    by rewrite (Hletter c1 _ H1 eq_refl), (Hletter c4 _ H4 eq_refl).
Qed.

(** X11.  [human] ends the session on [q], [quit] or [exit] written in any
    letter case and with any blanks around it, and writes nothing then; any
    other utterance is appended, unchanged, as the last message, and
    control goes to [intent_analysis]. *)
Theorem human_quit_or_append (user_input : string) (s : SmartHomeState) :
  (∀ pre w post,
     strip pre = "" → strip post = "" → lower w ∈ quit_words →
     user_input = pre +:+ w +:+ post →
     human user_input s = Abort SystemExit) ∧
  (lower (strip user_input) ∉ quit_words →
   human user_input s =
     Proceed (mkEntryCommand
       (mkEntryUpdate (Some (messages s ++ [user_input])) None None None None)
       "intent_analysis")).
Proof.
  split.
  - intros pre w post Hpre Hpost Hw ->.
    destruct (strip_blank pre Hpre) as [Hl _].
    destruct (strip_blank post Hpost) as [_ Hr].
    destruct (quit_word_stripped w Hw) as [Hwl Hwr].
    assert (strip (pre +:+ w +:+ post) = w) as Hstrip.
    { unfold strip. rewrite (lstrip_blank_prefix pre _ Hl).
      assert (lstrip (w +:+ post) = w +:+ post) as ->.
      { destruct w as [|c w].
        - exfalso. unfold quit_words in Hw. cbn [lower] in Hw.
          rewrite !elem_of_cons, elem_of_nil in Hw.
          by repeat (destruct Hw as [Hw|Hw]; [discriminate Hw|]).
        - simpl in Hwl |- *. destruct (isspace c); [|done].
          pose proof (lstrip_length w) as Hlen.
          rewrite Hwl in Hlen. simpl in Hlen. lia. }
      by rewrite (rstrip_blank_suffix w post Hr). }
    unfold human. by rewrite Hstrip, bool_decide_eq_true_2.
  - intros Hnot. unfold human. by rewrite bool_decide_eq_false_2.
Qed.

Lemma human_quit_or_append_witness :
  human "  QuIt  " initial_state = Abort SystemExit ∧
  human "quit now" initial_state =
    Proceed (mkEntryCommand
      (mkEntryUpdate (Some ["quit now"]) None None None None)
      "intent_analysis").
Proof.
  split.
  - destruct (human_quit_or_append "  QuIt  " initial_state) as [Hquit _].
    apply (Hquit "  " "QuIt" "  "); try reflexivity.
    unfold quit_words. rewrite !elem_of_cons. right. left. reflexivity.
  - destruct (human_quit_or_append "quit now" initial_state) as [_ Happend].
    apply Happend. unfold quit_words. rewrite !elem_of_cons, elem_of_nil.
    intros H.
    by repeat (destruct H as [H|H]; [vm_compute in H; discriminate H|]).
Defined.

(** X12.  From the driver's [initial_state], [human] and [intent_analysis]
    hand the planner a start-of-turn state: the only message and the
    utterance to plan are the user's input, which is not empty and not a
    quit word; the information units are those of the reply,
    [complexity_score] is their number and [key_modifiers] defaults to the
    empty list; queue, history, request and slots are as the driver set
    them. *)
Theorem front_end_hands_over (analyse : string → IntentReply)
    (user_input : string) (s : SmartHomeState) :
  front_end analyse user_input initial_state = Proceed s →
  turn_entry s ∧
  messages s = [user_input] ∧
  original_user_input s = Some user_input ∧
  user_input ≠ "" ∧
  (lower (strip user_input) ∉ quit_words) ∧
  ∃ units,
    reply_infos (analyse user_input) = Some units ∧
    infos s = Some units ∧
    complexity_score s = Some (length units) ∧
    key_modifiers s =
      Some (default [] (reply_key_modifiers (analyse user_input))).
Proof.
  unfold front_end, human. case_bool_decide as Hquit; [done|].
  simpl. unfold intent_analysis. simpl.
  case_bool_decide as Hempty; [done|]. simpl.
  destruct (reply_infos (analyse user_input)) as [units|] eqn:Hunits; [|done].
  intros [= <-]. simpl. split; [by repeat split|].
  repeat split; try done. by exists units.
Qed.

Lemma front_end_hands_over_witness :
  turn_entry entry_state ∧
  messages entry_state = ["What should I cook tonight?"] ∧
  original_user_input entry_state = Some "What should I cook tonight?" ∧
  "What should I cook tonight?" ≠ "" ∧
  (lower (strip "What should I cook tonight?") ∉ quit_words) ∧
  ∃ units,
    Some ["What should I cook tonight?"] = Some units ∧
    infos entry_state = Some units ∧
    complexity_score entry_state = Some (length units) ∧
    key_modifiers entry_state = Some (default [] None).
Proof.
  exact (front_end_hands_over (λ m, mkIntent (Some [m]) None)
           "What should I cook tonight?" entry_state eq_refl).
Defined.

(** X13.  How the two nodes fail, from the driver's [initial_state]: a quit
    word raises [SystemExit]; the empty utterance is appended and then
    rejected with [ValueError] before the chain is invoked (an utterance of
    blanks is not rejected); a reply without ["infos"] raises when its
    length is taken, after the chain was invoked. *)
Theorem front_end_failures (analyse : string → IntentReply)
    (user_input : string) (e : entry_exn) :
  (front_end analyse user_input initial_state = Abort e ↔
   (e = SystemExit ∧ lower (strip user_input) ∈ quit_words) ∨
   (e = ValueError ∧ user_input = "") ∨
   (e = LenOfNone ∧ (lower (strip user_input) ∉ quit_words) ∧
    user_input ≠ "" ∧ reply_infos (analyse user_input) = None)) ∧
  (intent_analysis analyse
     (apply_entry_update initial_state
        (mkEntryUpdate (Some [user_input]) None None None None))).1
  = if bool_decide (user_input = "") then [] else [user_input].
Proof.
  split.
  - unfold front_end, human. case_bool_decide as Hquit.
    { split; [intros [= <-]; by left|].
      intros [[-> _]|[[-> ->]|(-> & ? & _)]]; try done.
      exfalso. revert Hquit. unfold quit_words.
      rewrite !elem_of_cons, elem_of_nil. intros H.
      by repeat (destruct H as [H|H]; [discriminate H|]). }
    simpl. unfold intent_analysis. simpl.
    case_bool_decide as Hempty; simpl.
    { split; [intros [= <-]; right; by left|].
      by intros [[-> ?]|[[-> _]|(-> & _ & ? & _)]]. }
    destruct (reply_infos (analyse user_input)) as [units|] eqn:Hunits.
    { split; [done|]. by intros [[-> ?]|[[-> ?]|(-> & _ & _ & ?)]]. }
    split; [intros [= <-]; by right; right|].
    by intros [[-> ?]|[[-> ?]|(-> & _ & _ & ?)]].
  - unfold intent_analysis. simpl. by case_bool_decide.
Qed.

Lemma front_end_failures_witness :
  front_end (λ m, mkIntent (Some [m]) None) "" initial_state
    = Abort ValueError ∧
  front_end (λ m, mkIntent None (Some [])) "   " initial_state
    = Abort LenOfNone ∧
  front_end (λ m, mkIntent (Some [m]) None) " Exit" initial_state
    = Abort SystemExit.
Proof.
  split; [|split].
  - apply (front_end_failures (λ m, mkIntent (Some [m]) None) "" ValueError).
    right. left. split; reflexivity.
  - apply (front_end_failures (λ m, mkIntent None (Some [])) "   " LenOfNone).
    right. right. split; [reflexivity|]. split; [|split].
    + unfold quit_words. rewrite !elem_of_cons, elem_of_nil. intros H.
      by repeat (destruct H as [H|H]; [vm_compute in H; discriminate H|]).
    + discriminate.
    + reflexivity.
  - apply (front_end_failures (λ m, mkIntent (Some [m]) None) " Exit"
             SystemExit).
    left. split; [reflexivity|].
    unfold quit_words. rewrite !elem_of_cons. right. right. left. reflexivity.
Defined.

(** X14.  [get_user_input] returns the first human message: on a state that
    already holds a message [m], a new utterance [u] is appended last, but
    the message handed to the chain and written as the utterance to plan is
    [m], not [u]. *)
Theorem first_message_is_analysed (analyse : string → IntentReply)
    (user_input m : string) (ms units : list string) (s : SmartHomeState) :
  messages s = m :: ms →
  m ≠ "" →
  lower (strip user_input) ∉ quit_words →
  reply_infos (analyse m) = Some units →
  ∃ s',
    front_end analyse user_input s = Proceed s' ∧
    messages s' = m :: ms ++ [user_input] ∧
    original_user_input s' = Some m ∧
    infos s' = Some units ∧
    (intent_analysis analyse
       (apply_entry_update s
          (mkEntryUpdate (Some (messages s ++ [user_input])) None None None
             None))).1 = [m].
Proof.
  intros Hm Hne Hquit Hunits. unfold front_end, human.
  rewrite bool_decide_eq_false_2 by done. simpl.
  unfold intent_analysis, get_user_input. simpl. rewrite Hm. simpl.
  rewrite bool_decide_eq_false_2 by done. simpl. rewrite Hunits.
  eexists. split; [done|]. by simpl.
Qed.

Lemma first_message_is_analysed_witness :
  ∃ s',
    front_end (λ m, mkIntent (Some [m]) None) "turn the lights off"
      second_turn_state = Proceed s' ∧
    messages s' = ["play relaxing music"; "turn the lights off"] ∧
    original_user_input s' = Some "play relaxing music" ∧
    infos s' = Some ["play relaxing music"] ∧
    (intent_analysis (λ m, mkIntent (Some [m]) None)
       (apply_entry_update second_turn_state
          (mkEntryUpdate
             (Some (messages second_turn_state ++ ["turn the lights off"]))
             None None None None))).1 = ["play relaxing music"].
Proof.
  apply (first_message_is_analysed (λ m, mkIntent (Some [m]) None)
           "turn the lights off" "play relaxing music" []
           ["play relaxing music"] second_turn_state).
  - reflexivity.
  - discriminate.
  - unfold quit_words. rewrite !elem_of_cons, elem_of_nil. intros H.
    by repeat (destruct H as [H|H]; [vm_compute in H; discriminate H|]).
  - reflexivity.
Defined.

(* ------------------------------------------------------------------ *)
(** ** The driver's log of a worker event *)

Lemma agent_node_not_human (d : string) : agent_node d ≠ "human".
Proof.
  unfold agent_node. intros H. apply (f_equal String.length) in H.
  rewrite append_length in H. simpl in H. lia.
Qed.

Lemma log_responses_none (u : Update) :
  (∀ k, mjoin (u_responses u !! k) = None) → log_responses u = [].
Proof.
  intros Hnone. unfold log_responses, display_names. simpl.
  by rewrite !Hnone.
Qed.

Lemma log_results_none (u : Update) :
  (∀ k, mjoin (u_results u !! k) = None) → log_results u = [].
Proof.
  intros Hnone. unfold log_results, display_names. simpl.
  by rewrite !Hnone.
Qed.

Lemma log_responses_own (cfg : WorkerConfig) (u : Update)
    (v : option string) :
  cfg ∈ workers →
  u_responses u = {[ identity cfg := v ]} →
  log_responses u =
    if truthy v then
      ["COLLABORATION RESPONSE from " +:+ display_name cfg +:+ ":";
       "   " +:+ default "" v; ""]
    else [].
Proof.
  intros Hcfg Hu. unfold log_responses. rewrite Hu. revert Hcfg.
  unfold workers. rewrite !elem_of_cons, elem_of_nil.
  intros H; decompose [or] H; subst; try done;
    unfold display_names, display_name; simpl;
    rewrite ?lookup_singleton_eq, ?lookup_singleton_ne by done; simpl;
    by rewrite ?app_nil_r.
Qed.

Lemma log_results_own (cfg : WorkerConfig) (u : Update) (v : option string) :
  cfg ∈ workers →
  u_results u = {[ identity cfg := v ]} →
  log_results u =
    if truthy v then
      [display_name cfg +:+ " RESULT: " +:+ default "" v; ""]
    else [].
Proof.
  intros Hcfg Hu. unfold log_results. rewrite Hu. revert Hcfg.
  unfold workers. rewrite !elem_of_cons, elem_of_nil.
  intros H; decompose [or] H; subst; try done;
    unfold display_names, display_name; simpl;
    rewrite ?lookup_singleton_eq, ?lookup_singleton_ne by done; simpl;
    by rewrite ?app_nil_r.
Qed.

Lemma log_event_worker (dumps : list Task → string) (cfg : WorkerConfig)
    (u : Update) :
  log_event dumps (agent_node (identity cfg)) u =
    ["Node: " +:+ agent_node (identity cfg); dashes]
    ++ log_request u ++ log_pending u ++ log_responses u ++ log_results u
    ++ [""].
Proof.
  unfold log_event, log_queue.
  rewrite decide_False by apply agent_node_not_human.
  by rewrite decide_False by apply agent_node_not_planner.
Qed.

(** X15.  What the driver logs for a worker event is decided by the entry
    the worker appended.  A delegation is logged as a request block (from
    the worker, to the target) and a pending-task block.  An answer is
    logged under the worker's display name, and a completion as its RESULT
    line, only when the text is present and not empty; otherwise the block
    is the node header alone.  The cleared request, the cleared pending task
    and the consumed response slot never appear. *)
Theorem log_of_worker_event (dumps : list Task → string) (O : Oracle)
    (cfg : WorkerConfig) (s : SmartHomeState) (cmd : Command) :
  cfg ∈ workers →
  result (worker O cfg s) = Return (Some cmd) →
  ∃ e,
    u_task_history (update cmd) = Some (history s ++ [e]) ∧
    match he_result e with
    | Delegation target request =>
        he_type e = "collaboration_request" ∧
        log_event dumps (agent_node (identity cfg)) (update cmd) =
          ["Node: " +:+ agent_node (identity cfg); dashes;
           "COLLABORATION REQUEST:";
           "   From: " +:+ identity cfg;
           "   To: " +:+ target;
           "   Request: " +:+ request;
           "";
           "PENDING TASK:";
           "   Device: " +:+ identity cfg;
           "   Action: " +:+ he_action_taken e;
           "   Waiting for: " +:+ target;
           "";
           ""]
    | Text r =>
        (he_type e = "collaboration_response" ∧
         log_event dumps (agent_node (identity cfg)) (update cmd) =
           ["Node: " +:+ agent_node (identity cfg); dashes]
           ++ (if truthy r then
                 ["COLLABORATION RESPONSE from " +:+ display_name cfg +:+ ":";
                  "   " +:+ default "" r; ""]
               else [])
           ++ [""]) ∨
        (he_type e = "task_completion" ∧
         log_event dumps (agent_node (identity cfg)) (update cmd) =
           ["Node: " +:+ agent_node (identity cfg); dashes]
           ++ (if truthy r then
                 [display_name cfg +:+ " RESULT: " +:+ default "" r; ""]
               else [])
           ++ [""])
    end.
Proof.
  intros Hcfg. rewrite worker_branch.
  assert (∀ k : string, mjoin ((∅ : gmap string (option string)) !! k) = None)
    as Hempty by done.
  assert (∀ (c k : string),
            mjoin (({[ c := None ]} : gmap string (option string)) !! k)
            = None) as Hconsumed.
  { intros c k. destruct (decide (c = k)) as [->|Hne].
    - by rewrite lookup_singleton_eq.
    - by rewrite lookup_singleton_ne. }
  destruct (inbound_request _ _) as [cr|].
  { intros [= <-]. eexists. split; [done|]. simpl. left. split; [done|].
    rewrite log_event_worker.
    erewrite (log_responses_own cfg); [|done|simpl; reflexivity].
    by rewrite log_results_none by exact Hempty. }
  destruct (own_pending _ _) as [pt|].
  { unfold complete_pending. destruct (local_queue cfg s); [|done].
    intros [= <-]. eexists. split; [done|]. simpl. right. split; [done|].
    rewrite log_event_worker.
    erewrite (log_results_own cfg); [|done|simpl; reflexivity].
    by rewrite log_responses_none by exact (Hconsumed _). }
  destruct (own_head _ _) as [[t rest]|]; [|done].
  unfold handle_new_task. simpl.
  destruct (reply_collaboration _) as [c|];
    [destruct (truthy (reply_target c)) eqn:Htarget;
     [destruct (reply_request c) as [request|]; [|done]|]|];
    intros [= <-]; (eexists; split; [done|]); simpl.
  - split; [done|]. rewrite log_event_worker.
    rewrite log_responses_none by exact Hempty.
    rewrite log_results_none by exact Hempty.
    unfold log_request, log_pending. simpl.
    destruct (reply_target c) as [target|]; [|done]. simpl in *.
    by rewrite Htarget.
  - right. split; [done|]. rewrite log_event_worker.
    erewrite (log_results_own cfg); [|done|simpl; reflexivity].
    by rewrite log_responses_none by exact Hempty.
  - right. split; [done|]. rewrite log_event_worker.
    erewrite (log_results_own cfg); [|done|simpl; reflexivity].
    by rewrite log_responses_none by exact Hempty.
Qed.

Lemma log_of_worker_event_witness :
  ∃ e,
    u_task_history (update recipe_delegation) =
      Some (history (recipe_state 1) ++ [e]) ∧
    match he_result e with
    | Delegation target request =>
        he_type e = "collaboration_request" ∧
        log_event (λ _, "[]") "search_engine_agent"
          (update recipe_delegation) =
          ["Node: search_engine_agent"; dashes;
           "COLLABORATION REQUEST:";
           "   From: search_engine";
           "   To: " +:+ target;
           "   Request: " +:+ request;
           "";
           "PENDING TASK:";
           "   Device: search_engine";
           "   Action: " +:+ he_action_taken e;
           "   Waiting for: " +:+ target;
           "";
           ""]
    | Text r =>
        (he_type e = "collaboration_response" ∧
         log_event (λ _, "[]") "search_engine_agent"
           (update recipe_delegation) =
           ["Node: search_engine_agent"; dashes]
           ++ (if truthy r then
                 ["COLLABORATION RESPONSE from Search Engine:";
                  "   " +:+ default "" r; ""]
               else [])
           ++ [""]) ∨
        (he_type e = "task_completion" ∧
         log_event (λ _, "[]") "search_engine_agent"
           (update recipe_delegation) =
           ["Node: search_engine_agent"; dashes]
           ++ (if truthy r then
                 ["Search Engine RESULT: " +:+ default "" r; ""]
               else [])
           ++ [""])
    end.
Proof.
  apply (log_of_worker_event (λ _, "[]") recipe_oracle search_engine_cfg
           (recipe_state 1) recipe_delegation).
  - unfold workers. set_solver.
  - reflexivity.
Defined.

(* ------------------------------------------------------------------ *)
(** ** Oracle calls of a turn *)

Lemma step_calls_history (O : Oracle) (s : SmartHomeState) (n : string) :
  match step O s n with
  | Continue s' _ | Finished s' =>
      length (step_calls O s n) + length (history s) =
      length (history s') +
      (if decide (n = "task_planner") then length (calls (task_planner O s))
       else 0)
  | _ => True
  end.
Proof.
  unfold step, step_calls, hand_over.
  destruct (node O n) as [f|] eqn:Hnode; [|done].
  apply node_cases in Hnode as [[-> ->]|(cfg & Hcfg & -> & ->)].
  - rewrite decide_True by done.
    assert (∀ cmd, result (task_planner O s) = Return (Some cmd) →
              u_task_history (update cmd) = None) as Hplan.
    { unfold task_planner. intros cmd.
      destruct (default [] (task_queue s)); simpl; [|by intros [= <-]].
      destruct (truthy _); simpl; [|by intros [= <-]].
      destruct (ask_plan O _ _ _) as [[|]|]; try done. by intros [= <-]. }
    destruct (result (task_planner O s)) as [[cmd|]|] eqn:Hres; try done;
      [|lia].
    assert (history (apply_update s (update cmd)) = history s) as Hsame.
    { unfold history. simpl. by rewrite (Hplan cmd eq_refl). }
    destruct (successor O (goto cmd)); rewrite Hsame; lia.
  - rewrite decide_False by apply agent_node_not_planner.
    rewrite worker_branch.
    destruct (inbound_request _ _) as [cr|].
    { simpl. try destruct (successor O _); unfold history at 2; simpl;
        rewrite length_app; simpl; lia. }
    destruct (own_pending _ _) as [pt|].
    { unfold complete_pending. destruct (local_queue cfg s); [|done].
      simpl. try destruct (successor O _); unfold history at 2; simpl;
        rewrite length_app; simpl; lia. }
    destruct (own_head _ _) as [[t rest]|]; [|simpl; lia].
    unfold handle_new_task. simpl.
    destruct (reply_collaboration _) as [c|];
      [destruct (truthy _); [destruct (reply_request c); [|done]|]|];
      simpl; try destruct (successor O _); unfold history at 2; simpl;
      rewrite length_app; simpl; lia.
Qed.

Lemma run_calls_turn (O : Oracle) (plan : list Task) (fuel : nat)
    (s : SmartHomeState) (n : string) :
  protocol_inv O s (Some n) →
  plan_inv plan s →
  match (run O fuel s n).2 with
  | Continue s' _ | Finished s' =>
      length (run_calls O fuel s n) + length (history s) =
      length (history s')
  | _ => True
  end.
Proof.
  revert s n. induction fuel as [|k IH]; intros s n Hinv Hplan; simpl;
    [done|].
  pose proof (turn_step O plan s n Hinv Hplan) as Hstep.
  pose proof (step_inv O s n Hinv) as Hinv'.
  pose proof (step_calls_history O s n) as Hcalls.
  assert ((if decide (n = "task_planner")
           then length (calls (task_planner O s)) else 0) = 0) as Hnoplan.
  { case_decide; [|done]. subst n. destruct Hplan as (Hin & _).
    unfold task_planner. rewrite Hin.
    by destruct (default [] (task_queue s)). }
  rewrite Hnoplan in Hcalls.
  destruct (step O s n) as [s1 n1|s1| |]; simpl; try done.
  - destruct Hstep as [Hplan1 _]. specialize (IH s1 n1 Hinv' Hplan1).
    destruct (run O k s1 n1) as [trace r]. simpl in *.
    destruct r as [s2 n2|s2| |]; try done; rewrite length_app; lia.
  - rewrite length_app. simpl. lia.
Qed.

(** X16.  One Oracle call per history entry: in a turn that finishes, the
    Oracle was called once for planning (if an utterance was present) and
    once for every entry of the final history, and never otherwise. *)
Theorem oracle_calls_of_turn (O : Oracle) (s s' : SmartHomeState)
    (fuel : nat) (trace : list string) :
  turn_entry s →
  run O fuel s "task_planner" = (trace, Finished s') →
  length (run_calls O fuel s "task_planner") =
    (if truthy (original_user_input s) then 1 else 0) + length (history s').
Proof.
  intros Hentry Hrun. destruct fuel as [|k]; [done|].
  pose proof (entry_step O s Hentry) as Hstep.
  pose proof (step_calls_history O s "task_planner") as Hcalls.
  rewrite decide_True in Hcalls by done.
  assert (length (calls (task_planner O s)) =
            if truthy (original_user_input s) then 1 else 0) as Hplan.
  { destruct Hentry as (Hq & _). unfold task_planner. rewrite Hq. simpl.
    by destruct (truthy _). }
  assert (history s = []) as Hh.
  { destruct Hentry as (_ & _ & _ & Hh & _). unfold history. by rewrite Hh. }
  rewrite Hplan, Hh in Hcalls. simpl in Hrun, Hcalls |- *.
  destruct (step O s "task_planner") as [s1 n1|s1| |]; try done.
  - destruct Hstep as (Hinv & Hpl & _).
    pose proof (run_calls_turn O (planned O s) k s1 n1 Hinv Hpl) as Hrest.
    destruct (run O k s1 n1) as [trace1 r]. simpl in *.
    injection Hrun as _ ->. rewrite length_app. lia.
  - injection Hrun as _ ->. rewrite length_app. simpl. lia.
Qed.

Lemma oracle_calls_of_turn_witness :
  length (run_calls recipe_oracle 6 entry_state "task_planner") = 1 + 3 ∧
  length (run_calls relax_oracle 13 relax_entry "task_planner") = 1 + 3.
Proof.
  split.
  - exact (oracle_calls_of_turn recipe_oracle entry_state _ 6 _
             entry_state_ok eq_refl).
  - exact (oracle_calls_of_turn relax_oracle relax_entry _ 13 _
             relax_entry_ok eq_refl).
Defined.
